(** * hera-workflows: the graph-to-specification compiler

    A shallow embedding of [src/hera/dag.py] and [src/hera/workflow.py].

    Python objects are mutable and shared: a task that sits in a DAG's task
    list is the same object the caller still holds, and the context stack
    holds the very DAG a workflow owns.  Tasks and DAGs therefore live in an
    object store and are named by references; the methods of [DAG] and
    [Workflow] read and update that store.  A method either returns, raises
    one of Python's exceptions, or gets no answer from the model (the nesting
    is cyclic and the recursion budget is used up, or a reference names no
    object). *)

From stdpp Require Import gmap strings list pretty.
From Stdlib Require Import ZArith Ascii.

Set Default Proof Using "Type".
Open Scope string_scope.
Open Scope list_scope.

(** ** Outcomes of a call *)

(** The exception classes the two modules can raise. *)
Inductive exn : Type :=
  | TypeError        (* iterating over [None] *)
  | AttributeError   (* an attribute that was never set, or a method of [None] *)
  | KeyError         (* [raise KeyError(...)] *)
  | ValueError       (* [raise ValueError(...)] *)
  | AssertionError.  (* a failed [assert] *)

Inductive result (A : Type) : Type :=
  | Ok (a : A)
  | Raise (e : exn)
  | Stuck.
Arguments Ok {A} a.
Arguments Raise {A} e.
Arguments Stuck {A}.

Definition bind {A B : Type} (m : result A) (k : A -> result B) : result B :=
  match m with
  | Ok a => k a
  | Raise e => Raise e
  | Stuck => Stuck
  end.

Notation "'do' x <- m ; k" := (bind m (fun x => k))
  (at level 10, x name, m at level 100, k at level 200,
   format "'[v' 'do'  x  <-  m ; '/' k ']'").

(** [[f(x) for x in l]] where [f] may raise: left to right, the first failure
    wins. *)
Fixpoint traverse {A B : Type} (f : A -> result B) (l : list A) : result (list B) :=
  match l with
  | [] => Ok []
  | x :: l' => do y <- f x; do ys <- traverse f l'; Ok (y :: ys)
  end.

(** [for x in o] on an [Optional[List]] attribute: [None] is not iterable. *)
Definition iter {A : Type} (o : option (list A)) : result (list A) :=
  match o with
  | Some l => Ok l
  | None => Raise TypeError
  end.

(** ** Value objects (hera.parameter, hera.artifact) *)

(** A Python value carried by a parameter ([Any] in the source). *)
Inductive pyval : Type :=
  | PyNone
  | PyInt (z : Z)
  | PyStr (s : string)
  | PyBool (b : bool).

(** [Parameter] (the name is a reserved word here, hence [Param]). *)
Record Param : Type := mkParameter { p_name : string; p_value : pyval }.
Record Artifact : Type := mkArtifact { a_name : string; a_path : string }.

(** [Union[Parameter, Artifact]] *)
Inductive IO : Type :=
  | IsParameter (p : Param)
  | IsArtifact (a : Artifact).

Definition io_name (x : IO) : string :=
  match x with
  | IsParameter p => p_name p
  | IsArtifact a => a_name a
  end.

(** [[obj for obj in xs if isinstance(obj, Parameter)]] *)
Definition parameters_of (xs : list IO) : list Param :=
  omap (fun x => match x with IsParameter p => Some p | IsArtifact _ => None end) xs.

(** [[obj for obj in xs if isinstance(obj, Artifact)]] *)
Definition artifacts_of (xs : list IO) : list Artifact :=
  omap (fun x => match x with IsArtifact a => Some a | IsParameter _ => None end) xs.

(** ** Input normalizer: [DAG._parse_inputs], [Workflow._parse_inputs] *)

(** A Python [dict] iterates in insertion order: its items as a list. *)
Definition pydict : Type := list (string * pyval).

(** One element of a list passed as [inputs]. *)
Inductive input_item : Type :=
  | ItemParameter (p : Param)
  | ItemArtifact (a : Artifact)
  | ItemDict (d : pydict)
  | ItemOther (v : pyval).      (* matches neither [isinstance] test *)

(** The [inputs] argument. *)
Inductive inputs_arg : Type :=
  | InputsNone
  | InputsDict (d : pydict)
  | InputsList (l : list input_item).

(** [for k, v in d.items(): result.append(Parameter(name=k, value=v))] *)
Definition append_items (result : list IO) (d : pydict) : list IO :=
  foldl (fun result kv => result ++ [IsParameter (mkParameter kv.1 kv.2)]) result d.

Definition DAG_parse_inputs (inputs : inputs_arg) : list IO :=
  match inputs with
  | InputsNone => []
  | InputsDict d => append_items [] d
  | InputsList l =>
      foldl (fun result i =>
               match i with
               | ItemParameter p => result ++ [IsParameter p]
               | ItemArtifact a => result ++ [IsArtifact a]
               | ItemDict d => append_items result d
               | ItemOther _ => result
               end) [] l
  end.

(** The workflow's copy of the same code; its [isinstance] tests are against
    the [Parameter] and [Artifact] classes that module imports. *)
Definition Workflow_parse_inputs (inputs : inputs_arg) : list IO :=
  match inputs with
  | InputsNone => []
  | InputsDict d => append_items [] d
  | InputsList l =>
      foldl (fun result i =>
               match i with
               | ItemParameter p => result ++ [IsParameter p]
               | ItemArtifact a => result ++ [IsArtifact a]
               | ItemDict d => append_items result d
               | ItemOther _ => result
               end) [] l
  end.

(** What the normalizer is meant to yield, in the words of the specification:
    one parameter per entry of a mapping, typed entries unchanged. *)
Definition entry_parameter (kv : string * pyval) : IO :=
  IsParameter (mkParameter kv.1 kv.2).

Definition expand_item (i : input_item) : list IO :=
  match i with
  | ItemParameter p => [IsParameter p]
  | ItemArtifact a => [IsArtifact a]
  | ItemDict d => map entry_parameter d
  | ItemOther _ => []
  end.

(** The names an element of the input list brings, one per entry. *)
Definition item_names (i : input_item) : list string :=
  match i with
  | ItemParameter p => [p_name p]
  | ItemArtifact a => [a_name a]
  | ItemDict d => map fst d
  | ItemOther _ => []
  end.

(** ** Metrics normalizer: [Workflow._parse_metrics] *)

Record Prometheus : Type := mkPrometheus { prom_name : string; prom_help : string }.
Record Metrics : Type := mkMetrics { prometheus : list Prometheus }.

(** An element of a Python list passed as [metrics]. *)
Inductive metric_item : Type :=
  | ItemPrometheus (p : Prometheus)
  | ItemNotPrometheus (v : pyval).

(** The [metrics] argument, by the [isinstance] tests of the source. *)
Inductive metrics_arg : Type :=
  | MetricsNone
  | MetricsOne (p : Prometheus)
  | MetricsList (l : list metric_item)
  | MetricsWrapper (m : Metrics)
  | MetricsOther (v : pyval).

Definition is_prometheus (m : metric_item) : bool :=
  match m with ItemPrometheus _ => true | ItemNotPrometheus _ => false end.

Definition Workflow_parse_metrics (metrics : metrics_arg) : result (option Metrics) :=
  match metrics with
  | MetricsNone => Ok None
  | MetricsOne p => Ok (Some (mkMetrics [p]))
  | MetricsList l =>
      if forallb is_prometheus l
      then Ok (Some (mkMetrics
                       (omap (fun m => match m with
                                       | ItemPrometheus p => Some p
                                       | ItemNotPrometheus _ => None
                                       end) l)))
      else Raise AssertionError
  | MetricsWrapper m => Ok (Some m)
  | MetricsOther _ => Raise ValueError
  end.

(** ** Engine-facing models (hera.models) *)

(** [DAGTask]: the dependency descriptor of one unit of work. *)
Record DAGTask : Type := mkDAGTask {
  dt_name : string;
  dt_template : string;
  dt_dependencies : list string }.

Record ModelInputs : Type := mkInputs {
  in_parameters : list Param;
  in_artifacts : list Artifact }.

Record ModelOutputs : Type := mkOutputs {
  out_parameters : list Param;
  out_artifacts : list Artifact }.

Record DAGTemplate : Type := mkDAGTemplate { dag_tasks : list DAGTask }.

Record Template : Type := mkTemplate {
  tpl_name : string;
  tpl_inputs : option ModelInputs;
  tpl_outputs : option ModelOutputs;
  tpl_dag : option DAGTemplate }.

(** [PersistentVolumeClaim], read through [v.metadata.name]. *)
Record PersistentVolumeClaim : Type := mkClaim {
  pvc_metadata_name : string;
  pvc_storage : string }.

(** [Volume], read through [v.name]. *)
Record Volume : Type := mkVolume {
  vol_name : string;
  vol_claim_name : string }.

(** ** The object store *)

(** References to [Task] and [DAG] objects. *)
Definition tref : Type := nat.
Definition dref : Type := nat.

(** What a task's build operations return; fixed by the constructor arguments
    that [hera.task] interprets and this development does not look into. *)
Record TaskBuilds : Type := mkTaskBuilds {
  b_template : option Template;
  b_dag_task : DAGTask;
  b_volume_claim_templates : list PersistentVolumeClaim;
  b_persistent_volume_claims : list Volume }.

(** A [Task] object: the attributes the two modules read and write. *)
Record Task : Type := mkTask {
  t_name : string;
  t_dag : option dref;
  is_exit_task : bool;
  t_builds : TaskBuilds }.

(** A [DAG] object.  [outputs] and [tasks] are [Optional]: [__init__] stores
    the arguments as given. *)
Record DAG : Type := mkDAG {
  name : string;
  inputs : list IO;
  outputs : option (list IO);
  tasks : option (list tref) }.

(** [ModelWorkflowSpec], the fields the compiler fills from the graph. *)
Record WorkflowSpec : Type := mkWorkflowSpec {
  spec_arguments_artifacts : list Artifact;
  spec_arguments_parameters : list Param;
  spec_entrypoint : string;
  spec_metrics : option Metrics;
  spec_on_exit : option string;
  spec_templates : list Template;
  spec_volume_claim_templates : list PersistentVolumeClaim;
  spec_volumes : list Volume }.

(** [_ModelWorkflow] *)
Record ModelWorkflow : Type := mkModelWorkflow {
  mw_generate_name : option string;
  mw_name : option string;
  mw_spec : WorkflowSpec }.

(** The store: the objects, the context stack of [hera.dag_context] (top
    first) and the create requests the service has been handed. *)
Record Store : Type := mkStore {
  tasks_of : gmap tref Task;
  dags_of : gmap dref DAG;
  dag_context : list dref;
  submitted : list ModelWorkflow }.

Definition get_task (st : Store) (r : tref) : result Task :=
  match tasks_of st !! r with
  | Some t => Ok t
  | None => Stuck
  end.

Definition get_dag (st : Store) (r : dref) : result DAG :=
  match dags_of st !! r with
  | Some d => Ok d
  | None => Stuck
  end.

Definition set_task (st : Store) (r : tref) (t : Task) : Store :=
  mkStore (<[r := t]> (tasks_of st)) (dags_of st) (dag_context st) (submitted st).

Definition set_dag (st : Store) (r : dref) (d : DAG) : Store :=
  mkStore (tasks_of st) (<[r := d]> (dags_of st)) (dag_context st) (submitted st).

Definition set_context (st : Store) (c : list dref) : Store :=
  mkStore (tasks_of st) (dags_of st) c (submitted st).

Definition submit (st : Store) (m : ModelWorkflow) : Store :=
  mkStore (tasks_of st) (dags_of st) (dag_context st) (submitted st ++ [m]).

(** ** The unit of work (hera.task), as the compiler consumes it *)

(** Modelled from the spec: [Task._build_template] of hera.task, which is not
    among the sources: "its own template (or no template if not
    applicable)". *)
Definition Task_build_template (t : Task) : option Template :=
  b_template (t_builds t).

(** Modelled from the spec: [Task._build_dag_task] of hera.task: "its own
    dependency descriptor (or none if it is an exit task)". *)
Definition Task_build_dag_task (t : Task) : option DAGTask :=
  if is_exit_task t then None else Some (b_dag_task (t_builds t)).

(** Modelled from the spec: [Task._build_volume_claim_templates] of
    hera.task: "its lists of declared shared-resource specifications of both
    kinds", here the volume-claim templates. *)
Definition Task_build_volume_claim_templates (t : Task) : list PersistentVolumeClaim :=
  b_volume_claim_templates (t_builds t).

(** Modelled from the spec: [Task._build_persistent_volume_claims] of
    hera.task: the same for the persistent volumes. *)
Definition Task_build_persistent_volume_claims (t : Task) : list Volume :=
  b_persistent_volume_claims (t_builds t).

(** The nested pipelines of a task list: [t.dag for t in self.tasks if t.dag]. *)
Definition sub_dags_of (objs : list Task) : list dref := omap t_dag objs.

(** ** [DAG] *)

Section Constructor.
(** [hera.validators.validate_name], not among the sources: it returns the
    name or raises. *)
Variable validate_name : option string -> option string -> result (option string).

(** [DAG.__init__]: the new object and the store that holds it. *)
Definition DAG_init (st : Store) (name : string) (inputs : inputs_arg)
    (outputs : option (list IO)) (tasks : option (list tref)) : result dref * Store :=
  match validate_name (Some name) None with
  | Ok _ =>
      let self := fresh (dom (dags_of st)) in
      (Ok self, set_dag st self (mkDAG name (DAG_parse_inputs inputs) outputs tasks))
  | Raise e => (Raise e, st)
  | Stuck => (Stuck, st)
  end.
End Constructor.

(** [DAG._build_dag_tasks] *)
Definition DAG_build_dag_tasks (st : Store) (self : dref) : result (list DAGTask) :=
  do d <- get_dag st self;
  match tasks d with
  | Some ts =>
      do objs <- traverse (get_task st) ts;
      Ok (omap Task_build_dag_task
            (List.filter (fun t => negb (is_exit_task t)) objs))
  | None => Ok []
  end.

(** The methods that follow [t.dag] into nested pipelines recurse over the
    object graph, which nothing keeps acyclic; they take a recursion budget
    [fuel] and have no answer ([Stuck]) when it runs out. *)

(** [DAG._build_templates] *)
Fixpoint DAG_build_templates (fuel : nat) (st : Store) (self : dref)
    : result (list Template) :=
  match fuel with
  | 0 => Stuck
  | S fuel =>
      do d <- get_dag st self;
      match tasks d with
      | Some ts =>
          do objs <- traverse (get_task st) ts;
          let templates := omap Task_build_template objs in
          do sub_templates <- traverse (DAG_build_templates fuel st) (sub_dags_of objs);
          Ok (templates ++ concat sub_templates)
      | None => Ok []
      end
  end.

(** [DAG.build] *)
Fixpoint DAG_build (fuel : nat) (st : Store) (self : dref) : result (list Template) :=
  match fuel with
  | 0 => Stuck
  | S fuel =>
      do d <- get_dag st self;
      do outs <- iter (outputs d);
      do dag_tasks <- DAG_build_dag_tasks st self;
      let dag :=
        mkTemplate (name d)
          (Some (mkInputs (parameters_of (inputs d)) (artifacts_of (inputs d))))
          (Some (mkOutputs (parameters_of outs) (artifacts_of outs)))
          (Some (mkDAGTemplate dag_tasks)) in
      do ts <- iter (tasks d);
      do objs <- traverse (get_task st) ts;
      do sub_dags <- traverse (DAG_build fuel st) (sub_dags_of objs);
      Ok ([dag] ++ concat sub_dags)
  end.

(** The two resource collectors are the same code over two kinds of
    declaration; [R] is the kind, [key] reads its name and [declared] asks a
    task for its declarations. *)
Section Resources.
Context {R : Type} (key : R -> string) (declared : Task -> list R).

(** [vcs[k] = v] on a dict kept as its items in insertion order: a key that
    is present keeps its place. *)
Fixpoint dict_set (k : string) (v : R) (d : list (string * R)) : list (string * R) :=
  match d with
  | [] => [(k, v)]
  | (k', v') :: d' =>
      if decide (k = k') then (k, v) :: d' else (k', v') :: dict_set k v d'
  end.

(** [list(vcs.values())] *)
Definition dict_values (d : list (string * R)) : list R := d.*2.

(** [for v in vs: vcs[key(v)] = v] *)
Definition store_all (vcs : list (string * R)) (vs : list R) : list (string * R) :=
  foldl (fun vcs v => dict_set (key v) v vcs) vcs vs.

Fixpoint build_resources (fuel : nat) (st : Store) (self : dref) : result (list R) :=
  match fuel with
  | 0 => Stuck
  | S fuel =>
      do d <- get_dag st self;
      do ts <- iter (tasks d);
      do objs <- traverse (get_task st) ts;
      let vcs := foldl (fun vcs t => store_all vcs (declared t)) [] objs in
      do sub_volume_claims <- traverse (build_resources fuel st) (sub_dags_of objs);
      let vcs := foldl store_all vcs sub_volume_claims in
      Ok (dict_values vcs)
  end.

(** The pre-order traversal of the declarations: those of the DAG's own
    tasks first, then those under each task's nested DAG, recursively. *)
Fixpoint visit_resources (fuel : nat) (st : Store) (self : dref) : result (list R) :=
  match fuel with
  | 0 => Stuck
  | S fuel =>
      do d <- get_dag st self;
      do ts <- iter (tasks d);
      do objs <- traverse (get_task st) ts;
      do below <- traverse (visit_resources fuel st) (sub_dags_of objs);
      Ok (concat (map declared objs) ++ concat below)
  end.

(** The declarations of a list that carry a given name. *)
Definition named (n : string) (l : list R) : list R :=
  filter (fun v => key v = n) l.

(** A visited sequence collected into a name-keyed mapping, a later
    declaration overwriting an earlier one of the same name. *)
Definition last_wins (l : list R) : list R :=
  dict_values (store_all [] l).

(** Every item of a dict is filed under the name of its value, and no name
    is filed twice. *)
Definition keyed (d : list (string * R)) : Prop :=
  Forall (fun kv => kv.1 = key kv.2) d /\ NoDup d.*1.
End Resources.

(** [DAG._build_volume_claim_templates] *)
Definition DAG_build_volume_claim_templates
    : nat -> Store -> dref -> result (list PersistentVolumeClaim) :=
  build_resources pvc_metadata_name Task_build_volume_claim_templates.

(** [DAG._build_persistent_volume_claims] *)
Definition DAG_build_persistent_volume_claims
    : nat -> Store -> dref -> result (list Volume) :=
  build_resources vol_name Task_build_persistent_volume_claims.

(** [DAG.add_task]: [self.tasks.append(t)]. *)
Definition DAG_add_task (st : Store) (self : dref) (t : tref) : result dref * Store :=
  match dags_of st !! self with
  | None => (Stuck, st)
  | Some d =>
      match tasks d with
      | None => (Raise AttributeError, st)
      | Some ts =>
          (Ok self, set_dag st self (mkDAG (name d) (inputs d) (outputs d) (Some (ts ++ [t]))))
      end
  end.

(** [DAG.get_parameter] *)
Definition DAG_get_parameter (st : Store) (self : dref) (name : string) : result Param :=
  do d <- get_dag st self;
  do outs <- iter (outputs d);
  match List.find (fun p => String.eqb (io_name p) name) outs with
  | None => Raise KeyError
  | Some _ => Ok (mkParameter name (PyStr ("{{inputs.parameters." +:+ name +:+ "}}")))
  end.

(** ** The context stack (hera.dag_context) and the task constructor *)

(** Modelled from the spec: [hera.dag_context], which is not among the
    sources: "entering a pipeline's scope pushes it onto a process-wide stack
    ...; exiting the scope pops the stack". *)
Definition dag_context_enter (st : Store) (d : dref) : Store :=
  set_context st (d :: dag_context st).

(** Modelled from the spec: [hera.dag_context.exit], the pop. *)
Definition dag_context_exit (st : Store) : Store :=
  set_context st (tail (dag_context st)).

(** Modelled from the spec: the constructor of [Task] in hera.task, which is
    not among the sources: a new object with the exit flag clear, and "any
    unit of work constructed while the stack is non-empty is added to the
    pipeline currently on top".  [builds] stands for what the other
    constructor arguments make the build operations return. *)
Definition Task_init (st : Store) (name : string) (dag : option dref)
    (builds : TaskBuilds) : result tref * Store :=
  let t := fresh (dom (tasks_of st)) in
  let st := set_task st t (mkTask name dag false builds) in
  match dag_context st with
  | [] => (Ok t, st)
  | top :: _ =>
      match DAG_add_task st top t with
      | (Ok _, st) => (Ok t, st)
      | (Raise e, st) => (Raise e, st)
      | (Stuck, st) => (Stuck, st)
      end
  end.

(** ** [Workflow] *)

(** A [Workflow] object.  The scalar execution settings are passed through to
    the specification untouched and are left out.  [in_context] is an
    attribute that [__init__] does not set: it is absent ([None]) until
    [__enter__] or [__exit__] assigns it. *)
Record Workflow : Type := mkWorkflow {
  w_name : option string;
  w_generate_name : option string;
  w_dag : dref;
  w_inputs : list IO;
  w_outputs : list IO;
  w_metrics : option Metrics;
  on_exit_ : option string;
  in_context : option bool }.

Definition with_on_exit (self : Workflow) (target : string) : Workflow :=
  mkWorkflow (w_name self) (w_generate_name self) (w_dag self) (w_inputs self)
    (w_outputs self) (w_metrics self) (Some target) (in_context self).

Definition with_in_context (self : Workflow) (b : bool) : Workflow :=
  mkWorkflow (w_name self) (w_generate_name self) (w_dag self) (w_inputs self)
    (w_outputs self) (w_metrics self) (on_exit_ self) (Some b).

(** [str.rstrip("-.")] *)
Fixpoint rstrip_dash_dot (s : string) : string :=
  match s with
  | EmptyString => EmptyString
  | String c s' =>
      match rstrip_dash_dot s' with
      | EmptyString =>
          if (Ascii.eqb c "-"%char || Ascii.eqb c "."%char)%bool then EmptyString
          else String c EmptyString
      | r => String c r
      end
  end.

Section WorkflowConstructor.
Variable validate_name : option string -> option string -> result (option string).

(** [Workflow.__init__], for the arguments kept in [Workflow]; the hooks of
    [GlobalConfig.workflow_post_init_hooks] are taken to be none. *)
Definition Workflow_init (st : Store) (name dag_name : option string)
    (dag : option dref) (generate_name : option string) (inputs : inputs_arg)
    (outputs : option (list IO)) (metrics : metrics_arg) : result Workflow * Store :=
  match validate_name name generate_name with
  | Raise e => (Raise e, st)
  | Stuck => (Stuck, st)
  | Ok self_name =>
      match (match dag_name with
             | Some n => Ok n
             | None => match self_name with
                       | Some n => Ok (rstrip_dash_dot n)
                       | None => Raise AttributeError
                       end
             end) with
      | Raise e => (Raise e, st)
      | Stuck => (Stuck, st)
      | Ok dag_name =>
          match (match dag with
                 | Some d => (Ok d, st)
                 | None => DAG_init validate_name st dag_name InputsNone None None
                 end) with
          | (Raise e, st) => (Raise e, st)
          | (Stuck, st) => (Stuck, st)
          | (Ok self_dag, st) =>
              match Workflow_parse_metrics metrics with
              | Raise e => (Raise e, st)
              | Stuck => (Stuck, st)
              | Ok self_metrics =>
                  (Ok (mkWorkflow self_name generate_name self_dag
                         (Workflow_parse_inputs inputs) (default [] outputs)
                         self_metrics None None), st)
              end
          end
      end
  end.
End WorkflowConstructor.

(** [Workflow._build_spec], for the fields kept in [WorkflowSpec]; the
    keyword arguments are evaluated in the order written, so the first call
    that fails decides the outcome. *)
Definition Workflow_build_spec (fuel : nat) (st : Store) (self : Workflow)
    : result WorkflowSpec :=
  do d <- get_dag st (w_dag self);
  do own <- DAG_build_templates fuel st (w_dag self);
  do built <- DAG_build fuel st (w_dag self);
  do claims <- DAG_build_volume_claim_templates fuel st (w_dag self);
  do volumes <- DAG_build_persistent_volume_claims fuel st (w_dag self);
  Ok (mkWorkflowSpec (artifacts_of (w_inputs self)) (parameters_of (w_inputs self))
        (name d) (w_metrics self) (on_exit_ self) (own ++ built) claims volumes).

(** [Workflow.build], with [Workflow._build_metadata]. *)
Definition Workflow_build (fuel : nat) (st : Store) (self : Workflow)
    : result ModelWorkflow :=
  do spec <- Workflow_build_spec fuel st self;
  Ok (mkModelWorkflow (w_generate_name self) (w_name self) spec).

(** [Workflow.__enter__] *)
Definition Workflow_enter (st : Store) (self : Workflow) : Workflow * Store :=
  (with_in_context self true, dag_context_enter st (w_dag self)).

(** [Workflow.__exit__] *)
Definition Workflow_exit (st : Store) (self : Workflow) : Workflow * Store :=
  (with_in_context self false, dag_context_exit st).

(** [Workflow.add_task] *)
Definition Workflow_add_task (st : Store) (self : Workflow) (t : tref)
    : result Workflow * Store :=
  match DAG_add_task st (w_dag self) t with
  | (Ok _, st) => (Ok self, st)
  | (Raise e, st) => (Raise e, st)
  | (Stuck, st) => (Stuck, st)
  end.

(** The argument of [Workflow.on_exit], by its [isinstance] tests. *)
Inductive exit_target : Type :=
  | ExitTask (t : tref)
  | ExitDAG (d : dref)
  | ExitOther (v : pyval).

(** [Workflow.on_exit].  [wrapper] is what the build operations of the
    throwaway task return, which is for hera.task to say. *)
Definition Workflow_on_exit (wrapper : TaskBuilds) (st : Store) (self : Workflow)
    (other : exit_target) : result Workflow * Store :=
  match other with
  | ExitTask r =>
      match tasks_of st !! r with
      | None => (Stuck, st)
      | Some t =>
          let self := with_on_exit self (t_name t) in
          (Ok self, set_task st r (mkTask (t_name t) (t_dag t) true (t_builds t)))
      end
  | ExitDAG r =>
      match Task_init st "temp-name-for-hera-exit-dag" (Some r) wrapper with
      | (Raise e, st) => (Raise e, st)
      | (Stuck, st) => (Stuck, st)
      | (Ok t, st) =>
          match tasks_of st !! t, dags_of st !! r with
          | Some obj, Some d =>
              let st := set_task st t (mkTask (t_name obj) (t_dag obj) true (t_builds obj)) in
              (Ok (with_on_exit self (name d)), st)
          | _, _ => (Stuck, st)
          end
      end
  | ExitOther _ => (Raise ValueError, st)
  end.

(** [Workflow.get_parameter] *)
Definition Workflow_get_parameter (self : Workflow) (name : string) : result Param :=
  let parameters := parameters_of (w_inputs self) in
  match List.find (fun p => String.eqb (p_name p) name) parameters with
  | None => Raise KeyError
  | Some _ => Ok (mkParameter name (PyStr ("{{workflow.parameters." +:+ name +:+ "}}")))
  end.

(** [Workflow.create].  The request reaches the service only if the build
    returns.  What the engine answers is outside this development: the call
    is given the submitted model as its value. *)
Definition Workflow_create (fuel : nat) (st : Store) (self : Workflow)
    : result ModelWorkflow * Store :=
  match in_context self with
  | None => (Raise AttributeError, st)
  | Some true => (Raise ValueError, st)
  | Some false =>
      match Workflow_build fuel st self with
      | Ok m => (Ok m, submit st m)
      | Raise e => (Raise e, st)
      | Stuck => (Stuck, st)
      end
  end.

(** ** Further operations of [DAG] and [Workflow] *)

(** [DAG.add_tasks]: [self.tasks.extend(ts)]. *)
Definition DAG_add_tasks (st : Store) (self : dref) (ts : list tref)
    : result dref * Store :=
  match dags_of st !! self with
  | None => (Stuck, st)
  | Some d =>
      match tasks d with
      | None => (Raise AttributeError, st)
      | Some old =>
          (Ok self, set_dag st self (mkDAG (name d) (inputs d) (outputs d) (Some (old ++ ts))))
      end
  end.

(** [Workflow.add_tasks] *)
Definition Workflow_add_tasks (st : Store) (self : Workflow) (ts : list tref)
    : result Workflow * Store :=
  match DAG_add_tasks st (w_dag self) ts with
  | (Ok _, st) => (Ok self, st)
  | (Raise e, st) => (Raise e, st)
  | (Stuck, st) => (Stuck, st)
  end.

(** [VolumeClaimGC] of hera.models, by its [strategy]. *)
Record VolumeClaimGC : Type := mkVolumeClaimGC { gc_strategy : option string }.

(** A member of the enumeration [GCStrategy] of hera.gc_strategy, by its
    [value]. *)
Record GCStrategy : Type := mkGCStrategy { gc_value : string }.

(** The [volume_claim_gc] argument, by the [isinstance] tests of the source. *)
Inductive volume_claim_gc_arg : Type :=
  | GcNone
  | GcNative (g : VolumeClaimGC)
  | GcConvenience (s : GCStrategy)
  | GcOther (v : pyval).

(** [Workflow._parse_volume_claim_gc] *)
Definition Workflow_parse_volume_claim_gc (volume_claim_gc : volume_claim_gc_arg)
    : option VolumeClaimGC :=
  match volume_claim_gc with
  | GcNone => None
  | GcNative g => Some g
  | GcConvenience s => Some (mkVolumeClaimGC (Some (gc_value s)))
  | GcOther _ => None
  end.

(** ** [Sequence] (sequence.py) *)

(** A value handed to a field validator: one of the values of [pyval], or an
    object of any other type (a float, a list, ...). *)
Inductive field_value : Type :=
  | FieldOf (v : pyval)
  | FieldOther.

(** [str(v)] for an [int]; [bool] is a subclass of [int] and prints as
    [True] or [False]. *)
Definition py_str_of_int (z : Z) : string := pretty z.
Definition py_str_of_bool (b : bool) : string := if b then "True" else "False".

(** The body the three validators share: [None] and strings pass, integers
    are printed, anything else fails the [assert]. *)
Definition to_str (v : field_value) : result field_value :=
  match v with
  | FieldOf PyNone => Ok (FieldOf PyNone)
  | FieldOf (PyStr s) => Ok (FieldOf (PyStr s))
  | FieldOf (PyInt z) => Ok (FieldOf (PyStr (py_str_of_int z)))
  | FieldOf (PyBool b) => Ok (FieldOf (PyStr (py_str_of_bool b)))
  | FieldOther => Raise AssertionError
  end.

(** [Sequence.count_to_str] *)
Definition Sequence_count_to_str (v : field_value) : result field_value := to_str v.

(** [Sequence.start_to_str] *)
Definition Sequence_start_to_str (v : field_value) : result field_value := to_str v.

(** [Sequence.end_to_str] *)
Definition Sequence_end_to_str (v : field_value) : result field_value := to_str v.



(** ** Vocabulary of the statements *)

(** [for t in ts: dag.add_task(t)] *)
Fixpoint add_each (st : Store) (self : dref) (ts : list tref) : result dref * Store :=
  match ts with
  | [] => (Ok self, st)
  | t :: ts' =>
      match DAG_add_task st self t with
      | (Ok _, st) => add_each st self ts'
      | failed => failed
      end
  end.


(** The names of a sequence in the order in which each is first met. *)
Definition first_seen (names : list string) : list string :=
  foldl (fun seen n => if decide (n ∈ seen) then seen else seen ++ [n]) [] names.

(** A normalized setting handed back as an argument. *)
Definition metrics_again (m : option Metrics) : metrics_arg :=
  match m with
  | None => MetricsNone
  | Some m => MetricsWrapper m
  end.

Definition volume_claim_gc_again (g : option VolumeClaimGC) : volume_claim_gc_arg :=
  match g with
  | None => GcNone
  | Some g => GcNative g
  end.

(** Whether a character is one of those [rstrip("-.")] removes. *)
Definition is_dash_or_dot (c : ascii) : bool :=
  (Ascii.eqb c "-"%char || Ascii.eqb c "."%char)%bool.

(** Whether a string is made of such characters only. *)
Fixpoint only_dashes_and_dots (s : string) : bool :=
  match s with
  | EmptyString => true
  | String c s' => is_dash_or_dot c && only_dashes_and_dots s'
  end.

(** Whether a string ends in such a character. *)
Fixpoint ends_in_dash_or_dot (s : string) : bool :=
  match s with
  | EmptyString => false
  | String c EmptyString => is_dash_or_dot c
  | String _ s' => ends_in_dash_or_dot s'
  end.

(** Two task objects that differ at most in their exit flag. *)
Definition same_but_flag (a b : Task) : Prop :=
  t_name a = t_name b /\ t_dag a = t_dag b /\ t_builds a = t_builds b.


(** The template [DAG.build] makes for a DAG itself, given its outputs and
    its task objects. *)
Definition level_template (d : DAG) (outs : list IO) (objs : list Task) : Template :=
  mkTemplate (name d)
    (Some (mkInputs (parameters_of (inputs d)) (artifacts_of (inputs d))))
    (Some (mkOutputs (parameters_of outs) (artifacts_of outs)))
    (Some (mkDAGTemplate
             (omap Task_build_dag_task
                (List.filter (fun t => negb (is_exit_task t)) objs)))).

(** The template a DAG with no tasks compiles to. *)
Definition empty_template (d : DAG) (outs : list IO) : Template :=
  mkTemplate (name d)
    (Some (mkInputs (parameters_of (inputs d)) (artifacts_of (inputs d))))
    (Some (mkOutputs (parameters_of outs) (artifacts_of outs)))
    (Some (mkDAGTemplate [])).

(** The descriptor the task behind a reference contributes to a compiled
    task list, if any. *)
Definition descriptor_of (st : Store) (r : tref) : option DAGTask :=
  tasks_of st !! r ≫= Task_build_dag_task.

(** ** Worked objects *)

(** The template of a DAG that has a name and nothing else. *)
Definition empty_template_of (name : string) : Template :=
  mkTemplate name (Some (mkInputs [] [])) (Some (mkOutputs [] []))
    (Some (mkDAGTemplate [])).

(** A name validator that accepts every name. *)
Definition accept_name (name generate_name : option string) : result (option string) :=
  Ok name.

Definition empty_store : Store := mkStore ∅ ∅ [] [].

(** [DAG("d")]: neither [outputs] nor [tasks] is given. *)
Definition bare_dag_store : Store :=
  (DAG_init accept_name empty_store "d" InputsNone None None).2.

(** [DAG("d", tasks=[])]: the task list is given, [outputs] is not. *)
Definition no_outputs_dag_store : Store :=
  (DAG_init accept_name empty_store "d" InputsNone None (Some [])).2.

(** [DAG("d", outputs=[], tasks=[])] *)
Definition empty_dag_store : Store :=
  (DAG_init accept_name empty_store "d" InputsNone (Some []) (Some [])).2.

Definition plain_descriptor (name : string) : DAGTask := mkDAGTask name name [].

(** What a task that only wraps a nested DAG builds: no template of its own
    and no shared resources. *)
Definition wrapper_builds (name : string) : TaskBuilds :=
  mkTaskBuilds None (plain_descriptor name) [] [].

(** A pipeline whose task [writer] declares the claim and the volume that a
    task of the nested pipeline declares again under the same names. *)
Definition shared_store : Store :=
  mkStore
    (list_to_map
       [(0, mkTask "writer" None false
              (mkTaskBuilds None (plain_descriptor "writer")
                 [mkClaim "data" "1Gi"] [mkVolume "cache" "old-claim"]));
        (1, mkTask "nested" (Some 1) false (wrapper_builds "nested"));
        (2, mkTask "inner" None false
              (mkTaskBuilds None (plain_descriptor "inner")
                 [mkClaim "data" "5Gi"; mkClaim "logs" "1Gi"]
                 [mkVolume "cache" "new-claim"]))])
    (list_to_map
       [(0, mkDAG "root" [] (Some []) (Some [0; 1]));
        (1, mkDAG "inner-dag" [] (Some []) (Some [2]))])
    [] [].

(** Three levels of nesting; the innermost pipeline owns a task that does
    work of its own and has a template to show for it. *)
Definition three_level_store : Store :=
  mkStore
    (list_to_map
       [(0, mkTask "a" (Some 1) false (wrapper_builds "a"));
        (1, mkTask "b" (Some 2) false (wrapper_builds "b"));
        (2, mkTask "work" None false
              (mkTaskBuilds (Some (mkTemplate "work" None None None))
                 (plain_descriptor "work") [] []))])
    (list_to_map
       [(0, mkDAG "level-1" [] (Some []) (Some [0]));
        (1, mkDAG "level-2" [] (Some []) (Some [1]));
        (2, mkDAG "level-3" [] (Some []) (Some [2]))])
    [] [].

(** The three DAGs of a bare chain: each of the first two owns one task that
    wraps the next, the third owns nothing. *)
Definition chain_level_1 : DAG := mkDAG "level-1" [] (Some []) (Some [0]).
Definition chain_level_2 : DAG := mkDAG "level-2" [] (Some []) (Some [1]).
Definition chain_level_3 : DAG := mkDAG "level-3" [] (Some []) (Some []).
Definition chain_task_a : Task := mkTask "a" (Some 1) false (wrapper_builds "a").
Definition chain_task_b : Task := mkTask "b" (Some 2) false (wrapper_builds "b").

Definition chain_store : Store :=
  mkStore
    (list_to_map [(0, chain_task_a); (1, chain_task_b)])
    (list_to_map [(0, chain_level_1); (1, chain_level_2); (2, chain_level_3)])
    [] [].

(** A pipeline of two tasks, the second of which is meant to run on exit. *)
Definition cleanup_store : Store :=
  mkStore
    (list_to_map
       [(0, mkTask "work" None false
              (mkTaskBuilds (Some (mkTemplate "work" None None None))
                 (plain_descriptor "work") [] []));
        (1, mkTask "cleanup" None false
              (mkTaskBuilds (Some (mkTemplate "cleanup" None None None))
                 (plain_descriptor "cleanup") [] []))])
    (list_to_map [(0, mkDAG "main" [] (Some []) (Some [0; 1]))])
    [] [].

(** A workflow's pipeline and a second pipeline meant to run on exit; no
    scope is open. *)
Definition exit_dag_store : Store :=
  mkStore ∅
    (list_to_map
       [(0, mkDAG "main" [] (Some []) (Some []));
        (1, mkDAG "cleanup-dag" [] (Some []) (Some []))])
    [] [].

(** A workflow over the DAG at reference [0], outside any scope. *)
Definition workflow_over_root : Workflow :=
  mkWorkflow (Some "w") None 0 [] [] None None None.

(** [Workflow(name="w", dag=d)] for the DAG [d] of [empty_dag_store], which
    has both of its collections as lists. *)
Definition fresh_workflow : result Workflow * Store :=
  Workflow_init accept_name empty_dag_store (Some "w") (Some "hera-dag") (Some 0)
    None InputsNone None MetricsNone.

(** What that workflow builds to. *)
Definition fresh_model : ModelWorkflow :=
  mkModelWorkflow None (Some "w")
    (mkWorkflowSpec [] [] "d" None None [empty_template_of "d"] [] []).

(** [Workflow(name="w")]: the constructor makes the DAG itself. *)
Definition default_workflow : result Workflow * Store :=
  Workflow_init accept_name empty_store (Some "w") (Some "hera-dag") None
    None InputsNone None MetricsNone.

(** The same after [with workflow:] has been entered over [exit_dag_store]. *)
Definition entered_workflow : Workflow :=
  (Workflow_enter exit_dag_store workflow_over_root).1.

Definition entered_store : Store :=
  (Workflow_enter exit_dag_store workflow_over_root).2.

(** The template of the pipeline meant to run on exit. *)
Definition cleanup_dag_template : Template :=
  empty_template_of "cleanup-dag".

(** * Properties *)

(** ** The input normalizer *)

Lemma append_items_app (result : list IO) (d : pydict) :
  append_items result d = result ++ map entry_parameter d.
Proof.
  unfold append_items. revert result.
  induction d as [|kv d IH]; intros result; simpl.
  - by rewrite app_nil_r.
  - rewrite IH. by rewrite <- app_assoc.
Qed.

Lemma parse_list_app (l : list input_item) (result : list IO) :
  foldl (fun result i =>
           match i with
           | ItemParameter p => result ++ [IsParameter p]
           | ItemArtifact a => result ++ [IsArtifact a]
           | ItemDict d => append_items result d
           | ItemOther _ => result
           end) result l
  = result ++ concat (map expand_item l).
Proof.
  revert result. induction l as [|i l IH]; intros result; simpl.
  - by rewrite app_nil_r.
  - rewrite IH. destruct i; simpl.
    + by rewrite <- app_assoc.
    + by rewrite <- app_assoc.
    + rewrite append_items_app. by rewrite <- app_assoc.
    + done.
Qed.

Lemma expand_item_names (i : input_item) :
  map io_name (expand_item i) = item_names i.
Proof.
  destruct i; simpl; try done.
  induction d as [|[k v] d IH]; simpl; [done | by rewrite IH].
Qed.

(** C3: [None] normalizes to the empty list; a dict to one parameter per
    entry, key as name and value as value, in the dict's order; a list to its
    typed entries unchanged and one parameter per entry of each dict element,
    in order.  Every entry is kept: the names of the result are the names
    given, repetitions included.  The same holds of the DAG's and of the
    workflow's normalizer. *)
Theorem parse_inputs_normalizes :
  (DAG_parse_inputs InputsNone = [] /\ Workflow_parse_inputs InputsNone = []) /\
  (forall d : pydict,
      DAG_parse_inputs (InputsDict d) = map entry_parameter d /\
      Workflow_parse_inputs (InputsDict d) = map entry_parameter d /\
      map io_name (DAG_parse_inputs (InputsDict d)) = map fst d) /\
  (forall l : list input_item,
      DAG_parse_inputs (InputsList l) = concat (map expand_item l) /\
      Workflow_parse_inputs (InputsList l) = concat (map expand_item l) /\
      map io_name (DAG_parse_inputs (InputsList l)) = concat (map item_names l)).
Proof.
  split; [done|]. split.
  - intros d. simpl. rewrite append_items_app. simpl.
    split; [done|]. split; [done|].
    apply (expand_item_names (ItemDict d)).
  - intros l. simpl. rewrite parse_list_app. simpl.
    split; [done|]. split; [done|].
    induction l as [|i l IH]; simpl; [done|].
    by rewrite map_app, IH, expand_item_names.
Qed.

(** ** The metrics normalizer *)

Lemma forallb_is_prometheus_map (ps : list Prometheus) :
  forallb is_prometheus (map ItemPrometheus ps) = true.
Proof. induction ps; simpl; auto. Qed.

Lemma omap_prometheus_map (ps : list Prometheus) :
  omap (fun m => match m with
                 | ItemPrometheus p => Some p
                 | ItemNotPrometheus _ => None
                 end) (map ItemPrometheus ps) = ps.
Proof. induction ps as [|p ps IH]; simpl; [done | f_equal; exact IH]. Qed.

Lemma forallb_is_prometheus_stranger (l1 l2 : list metric_item) (v : pyval) :
  forallb is_prometheus (l1 ++ ItemNotPrometheus v :: l2) = false.
Proof.
  induction l1 as [|m l1 IH]; simpl; [done|].
  rewrite IH. apply andb_false_r.
Qed.

(** C8: [None] stays [None]; a single Prometheus entry, a list of Prometheus
    entries and a Metrics wrapper each normalize to a Metrics wrapper holding
    those entries; every other input is refused: a value of another type by
    [ValueError], a list with an element that is not a Prometheus entry by
    the [assert]. *)
Theorem parse_metrics_normalizes :
  Workflow_parse_metrics MetricsNone = Ok None /\
  (forall p, Workflow_parse_metrics (MetricsOne p) = Ok (Some (mkMetrics [p]))) /\
  (forall ps, Workflow_parse_metrics (MetricsList (map ItemPrometheus ps))
              = Ok (Some (mkMetrics ps))) /\
  (forall m, Workflow_parse_metrics (MetricsWrapper m) = Ok (Some m)) /\
  (forall v, Workflow_parse_metrics (MetricsOther v) = Raise ValueError) /\
  (forall l1 v l2,
      Workflow_parse_metrics (MetricsList (l1 ++ ItemNotPrometheus v :: l2))
      = Raise AssertionError).
Proof.
  repeat split; try done.
  - intros ps. unfold Workflow_parse_metrics.
    by rewrite forallb_is_prometheus_map, omap_prometheus_map.
  - intros l1 v l2. unfold Workflow_parse_metrics.
    by rewrite forallb_is_prometheus_stranger.
Qed.

(** ** A DAG on its own: absent collections, the empty pipeline *)

Lemma DAG_init_accepted (validate_name : option string -> option string -> result (option string))
    (st : Store) (name : string) (ins : inputs_arg) (outs : option (list IO))
    (ts : option (list tref)) (x : option string) :
  validate_name (Some name) None = Ok x ->
  let self := fresh (dom (dags_of st)) in
  let d := mkDAG name (DAG_parse_inputs ins) outs ts in
  DAG_init validate_name st name ins outs ts = (Ok self, set_dag st self d) /\
  dags_of (set_dag st self d) !! self = Some d /\
  dags_of st !! self = None.
Proof.
  intros Hv self d. unfold DAG_init. rewrite Hv. split; [done|]. split.
  - simpl. apply lookup_insert_eq.
  - apply not_elem_of_dom, is_fresh.
Qed.

(** A DAG compiles only if both of its collections are lists. *)
Lemma DAG_build_needs_lists (fuel : nat) (st : Store) (self : dref) (d : DAG)
    (l : list Template) :
  dags_of st !! self = Some d ->
  DAG_build fuel st self = Ok l ->
  is_Some (outputs d) /\ is_Some (tasks d).
Proof.
  intros Hd. destruct fuel as [|fuel]; [done|]. simpl.
  unfold get_dag. rewrite Hd. simpl.
  destruct (outputs d) as [outs|]; [|done]. simpl.
  destruct (DAG_build_dag_tasks st self); simpl; try done.
  destruct (tasks d) as [ts|]; [|done]. eauto.
Qed.

Lemma build_resources_needs_list {R : Type} (key : R -> string) (declared : Task -> list R)
    (fuel : nat) (st : Store) (self : dref) (d : DAG) (l : list R) :
  dags_of st !! self = Some d ->
  build_resources key declared fuel st self = Ok l ->
  is_Some (tasks d).
Proof.
  intros Hd. destruct fuel as [|fuel]; [done|]. simpl.
  unfold get_dag. rewrite Hd. simpl.
  destruct (tasks d) as [ts|]; [eauto | done].
Qed.

(** A DAG whose task list is the empty list compiles to one template with no
    tasks and to empty resource collections. *)
Lemma empty_pipeline_compiles (fuel : nat) (st : Store) (self : dref) (d : DAG)
    (outs : list IO) :
  dags_of st !! self = Some d ->
  outputs d = Some outs ->
  tasks d = Some [] ->
  DAG_build (S fuel) st self = Ok [empty_template d outs] /\
  DAG_build_volume_claim_templates (S fuel) st self = Ok [] /\
  DAG_build_persistent_volume_claims (S fuel) st self = Ok [].
Proof.
  intros Hd Ho Ht.
  unfold DAG_build_volume_claim_templates, DAG_build_persistent_volume_claims.
  simpl. unfold DAG_build_dag_tasks, get_dag. rewrite Hd. simpl.
  by rewrite Ho, Ht.
Qed.

(** C10: a DAG constructed without a task list and without an outputs list
    keeps [None] for both: adding a task raises (there is no list to append
    to) and building raises (there is nothing to iterate over); neither treats
    the absent collection as empty.  Constructed with empty lists the DAG
    compiles as the empty pipeline, and a DAG that compiles at all has both
    collections as lists. *)
Theorem DAG_absent_collections_fail
    (validate_name : option string -> option string -> result (option string))
    (st : Store) (name : string) (ins : inputs_arg) (x : option string) :
  validate_name (Some name) None = Ok x ->
  (exists self st',
      DAG_init validate_name st name ins None None = (Ok self, st') /\
      (forall t, DAG_add_task st' self t = (Raise AttributeError, st')) /\
      (forall fuel, DAG_build (S fuel) st' self = Raise TypeError)) /\
  (forall outs, exists self st' d,
      DAG_init validate_name st name ins (Some outs) (Some []) = (Ok self, st') /\
      dags_of st' !! self = Some d /\
      forall fuel,
        DAG_build (S fuel) st' self = Ok [empty_template d outs] /\
        DAG_build_volume_claim_templates (S fuel) st' self = Ok [] /\
        DAG_build_persistent_volume_claims (S fuel) st' self = Ok []) /\
  (forall fuel st' self d l,
      dags_of st' !! self = Some d ->
      DAG_build fuel st' self = Ok l ->
      is_Some (outputs d) /\ is_Some (tasks d)).
Proof.
  intros Hv. split; [|split].
  - destruct (DAG_init_accepted validate_name st name ins None None x Hv)
      as (Hinit & Hd & _).
    eexists _, _. split; [exact Hinit|]. split.
    + intros t. unfold DAG_add_task. by rewrite Hd.
    + intros fuel. simpl. unfold get_dag. by rewrite Hd.
  - intros outs.
    destruct (DAG_init_accepted validate_name st name ins (Some outs) (Some []) x Hv)
      as (Hinit & Hd & _).
    eexists _, _, _. split; [exact Hinit|]. split; [exact Hd|].
    intros fuel. by apply empty_pipeline_compiles.
  - intros fuel st' self d l. apply DAG_build_needs_lists.
Qed.

Lemma DAG_absent_collections_fail_witness :
  (exists self st',
      DAG_init accept_name empty_store "d" InputsNone None None = (Ok self, st') /\
      (forall t, DAG_add_task st' self t = (Raise AttributeError, st')) /\
      (forall fuel, DAG_build (S fuel) st' self = Raise TypeError)) /\
  (forall outs, exists self st' d,
      DAG_init accept_name empty_store "d" InputsNone (Some outs) (Some [])
      = (Ok self, st') /\
      dags_of st' !! self = Some d /\
      forall fuel,
        DAG_build (S fuel) st' self = Ok [empty_template d outs] /\
        DAG_build_volume_claim_templates (S fuel) st' self = Ok [] /\
        DAG_build_persistent_volume_claims (S fuel) st' self = Ok []) /\
  (forall fuel st' self d l,
      dags_of st' !! self = Some d ->
      DAG_build fuel st' self = Ok l ->
      is_Some (outputs d) /\ is_Some (tasks d)).
Proof.
  apply (DAG_absent_collections_fail accept_name empty_store "d" InputsNone (Some "d")).
  reflexivity.
Defined.

(** C7, at [DAG("d")] and at [DAG("d", tasks=[])]: the pipeline owns no unit
    of work, yet building it raises [TypeError], and without a task list so
    does collecting its resources, while the sibling operations
    [_build_dag_tasks] and [_build_templates] take the absent task list for
    an empty one. *)
Theorem empty_pipeline_without_lists_raises :
  DAG_init accept_name empty_store "d" InputsNone None None = (Ok 0, bare_dag_store) /\
  DAG_build 1 bare_dag_store 0 = Raise TypeError /\
  DAG_build_volume_claim_templates 1 bare_dag_store 0 = Raise TypeError /\
  DAG_build_persistent_volume_claims 1 bare_dag_store 0 = Raise TypeError /\
  DAG_build_dag_tasks bare_dag_store 0 = Ok [] /\
  DAG_build_templates 1 bare_dag_store 0 = Ok [] /\
  DAG_init accept_name empty_store "d" InputsNone None (Some [])
  = (Ok 0, no_outputs_dag_store) /\
  DAG_build 1 no_outputs_dag_store 0 = Raise TypeError.
Proof. repeat split. Qed.

(** The DAG a workflow makes for itself is such a DAG: the workflow can
    neither be given a task nor be built. *)
Example default_workflow_is_unusable :
  exists w st,
    default_workflow = (Ok w, st) /\
    dags_of st !! w_dag w = Some (mkDAG "hera-dag" [] None None) /\
    (forall t, Workflow_add_task st w t = (Raise AttributeError, st)) /\
    Workflow_build 1 st w = Raise TypeError.
Proof. eexists _, _. repeat split. Qed.

(** ** Comprehensions that may fail *)

Lemma traverse_bind_map {A B C : Type} (f : A -> result C) (g : A -> result B)
    (h : B -> C) (l : list A) :
  (forall x, f x = do y <- g x; Ok (h y)) ->
  traverse f l = do ys <- traverse g l; Ok (map h ys).
Proof.
  intros Hfg. induction l as [|x l IH]; [done|].
  simpl. rewrite Hfg, IH.
  destruct (g x); simpl; try done.
  destruct (traverse g l); done.
Qed.

(** ** The recursion budget

    A call that has an answer keeps it when given more fuel: the outcomes
    stated below for one budget hold for every larger one. *)

Lemma traverse_more {A B : Type} (f g : A -> result B) (l : list A) :
  (forall x, f x <> Stuck -> g x = f x) ->
  traverse f l <> Stuck ->
  traverse g l = traverse f l.
Proof.
  intros Hfg. induction l as [|x l IH]; [done|]. simpl.
  destruct (f x) as [y| |] eqn:Hx; simpl; [| |done].
  - rewrite (Hfg x), Hx by congruence. simpl.
    destruct (traverse f l) as [ys| |] eqn:Hl; simpl; [| |done].
    + intros _. by rewrite IH.
    + intros _. by rewrite IH.
  - intros _. by rewrite (Hfg x), Hx by congruence.
Qed.

Lemma DAG_build_templates_more (fuel : nat) (st : Store) (self : dref) :
  DAG_build_templates fuel st self <> Stuck ->
  DAG_build_templates (S fuel) st self = DAG_build_templates fuel st self.
Proof.
  revert self. induction fuel as [|fuel IH]; intros self; [done|].
  remember (S fuel) as fuel' eqn:Hfuel.
  rewrite Hfuel at 1 3. simpl.
  destruct (get_dag st self) as [d| |]; simpl; try done.
  destruct (tasks d) as [ts|]; [|done].
  destruct (traverse (get_task st) ts) as [objs| |]; simpl; try done.
  destruct (traverse (DAG_build_templates fuel st) (sub_dags_of objs)) eqn:Hsub;
    simpl; [| |done]; intros _;
    (rewrite (traverse_more _ _ _ IH) by (by rewrite Hsub)); by rewrite Hsub.
Qed.

Lemma DAG_build_more (fuel : nat) (st : Store) (self : dref) :
  DAG_build fuel st self <> Stuck ->
  DAG_build (S fuel) st self = DAG_build fuel st self.
Proof.
  revert self. induction fuel as [|fuel IH]; intros self; [done|].
  remember (S fuel) as fuel' eqn:Hfuel.
  rewrite Hfuel at 1 3. simpl.
  destruct (get_dag st self) as [d| |]; simpl; try done.
  destruct (iter (outputs d)) as [outs| |]; simpl; try done.
  destruct (DAG_build_dag_tasks st self) as [dag_tasks| |]; simpl; try done.
  destruct (iter (tasks d)) as [ts| |]; simpl; try done.
  destruct (traverse (get_task st) ts) as [objs| |]; simpl; try done.
  destruct (traverse (DAG_build fuel st) (sub_dags_of objs)) eqn:Hsub;
    simpl; [| |done]; intros _;
    (rewrite (traverse_more _ _ _ IH) by (by rewrite Hsub)); by rewrite Hsub.
Qed.

Lemma build_resources_more {R : Type} (key : R -> string) (declared : Task -> list R)
    (fuel : nat) (st : Store) (self : dref) :
  build_resources key declared fuel st self <> Stuck ->
  build_resources key declared (S fuel) st self
  = build_resources key declared fuel st self.
Proof.
  revert self. induction fuel as [|fuel IH]; intros self; [done|].
  remember (S fuel) as fuel' eqn:Hfuel.
  rewrite Hfuel at 1 3. simpl.
  destruct (get_dag st self) as [d| |]; simpl; try done.
  destruct (iter (tasks d)) as [ts| |]; simpl; try done.
  destruct (traverse (get_task st) ts) as [objs| |]; simpl; try done.
  destruct (traverse (build_resources key declared fuel st) (sub_dags_of objs))
    eqn:Hsub; simpl; [| |done]; intros _;
    (rewrite (traverse_more _ _ _ IH) by (by rewrite Hsub)); by rewrite Hsub.
Qed.

Lemma Workflow_build_spec_more (fuel : nat) (st : Store) (w : Workflow) :
  Workflow_build_spec fuel st w <> Stuck ->
  Workflow_build_spec (S fuel) st w = Workflow_build_spec fuel st w.
Proof.
  unfold Workflow_build_spec, DAG_build_volume_claim_templates,
    DAG_build_persistent_volume_claims.
  destruct (get_dag st (w_dag w)) as [d| |]; cbn [bind]; try done.
  destruct (DAG_build_templates fuel st (w_dag w)) as [own| |] eqn:Hown;
    cbn [bind]; [| |done]; intros H;
    (rewrite DAG_build_templates_more by congruence); rewrite Hown;
    cbn [bind]; [|done].
  destruct (DAG_build fuel st (w_dag w)) as [built| |] eqn:Hbuilt;
    cbn [bind] in *; [| |done];
    (rewrite DAG_build_more by congruence); rewrite Hbuilt; cbn [bind]; [|done].
  destruct (build_resources pvc_metadata_name Task_build_volume_claim_templates
              fuel st (w_dag w)) as [claims| |] eqn:Hclaims;
    cbn [bind] in *; [| |done];
    (rewrite build_resources_more by congruence); rewrite Hclaims;
    cbn [bind]; [|done].
  destruct (build_resources vol_name Task_build_persistent_volume_claims
              fuel st (w_dag w)) as [volumes| |] eqn:Hvolumes;
    cbn [bind] in *; [| |done];
    (rewrite build_resources_more by congruence); rewrite Hvolumes; done.
Qed.

(** ** Shared resources: a dict in insertion order *)

Section ResourceFacts.
Context {R : Type} (key : R -> string) (declared : Task -> list R).

Lemma dict_set_absent (k : string) (v : R) (d : list (string * R)) :
  k ∉ d.*1 -> dict_set k v d = d ++ [(k, v)].
Proof.
  induction d as [|[k' v'] d IH]; csimpl; intros Hk; [done|].
  rewrite not_elem_of_cons in Hk. destruct Hk as [Hne Hk].
  destruct (decide (k = k')); [done|]. by rewrite IH.
Qed.

Lemma dict_set_keys_present (k : string) (v : R) (d : list (string * R)) :
  k ∈ d.*1 -> (dict_set k v d).*1 = d.*1.
Proof.
  induction d as [|[k' v'] d IH]; csimpl; intros Hk.
  - by apply elem_of_nil in Hk.
  - destruct (decide (k = k')) as [->|Hne]; [done|]. csimpl.
    rewrite IH; [done|]. apply elem_of_cons in Hk as [?|?]; done.
Qed.

Lemma dict_set_key_in (k : string) (v : R) (d : list (string * R)) :
  k ∈ (dict_set k v d).*1.
Proof.
  induction d as [|[k' v'] d IH]; csimpl.
  - apply list_elem_of_here.
  - destruct (decide (k = k')); csimpl; [apply list_elem_of_here|].
    by apply list_elem_of_further.
Qed.

Lemma dict_set_keys_mono (k k' : string) (v : R) (d : list (string * R)) :
  k ∈ d.*1 -> k ∈ (dict_set k' v d).*1.
Proof.
  intros Hk. destruct (decide (k' ∈ d.*1)) as [Hin|Hout].
  - by rewrite dict_set_keys_present.
  - rewrite dict_set_absent by done. rewrite fmap_app.
    apply elem_of_app. by left.
Qed.

Lemma dict_set_twice (k : string) (x v : R) (d : list (string * R)) :
  dict_set k x (dict_set k v d) = dict_set k x d.
Proof.
  induction d as [|[k' v'] d IH]; csimpl.
  - by destruct (decide (k = k)).
  - destruct (decide (k = k')) as [->|Hne]; csimpl.
    + by destruct (decide (k' = k')).
    + destruct (decide (k = k')); [done|]. by rewrite IH.
Qed.

(** Writing under a name that is present keeps its place, so it commutes
    with a write under another name. *)
Lemma dict_set_comm (k k' : string) (x y : R) (d : list (string * R)) :
  k <> k' -> k ∈ d.*1 ->
  dict_set k' y (dict_set k x d) = dict_set k x (dict_set k' y d).
Proof.
  intros Hne. induction d as [|[k0 v0] d IH]; csimpl; intros Hk.
  - by apply elem_of_nil in Hk.
  - destruct (decide (k = k0)) as [->|Hk0]; csimpl.
    + destruct (decide (k' = k0)); [congruence|]. csimpl.
      by destruct (decide (k0 = k0)).
    + destruct (decide (k' = k0)) as [->|Hk0']; csimpl.
      * by destruct (decide (k = k0)).
      * destruct (decide (k = k0)); [done|].
        rewrite IH; [done|]. apply elem_of_cons in Hk as [?|?]; done.
Qed.

Lemma store_all_app (m : list (string * R)) (l1 l2 : list R) :
  store_all key m (l1 ++ l2) = store_all key (store_all key m l1) l2.
Proof. apply foldl_app. Qed.

Lemma store_all_set_present (k : string) (x : R) (w : list R) (m : list (string * R)) :
  Forall (fun y => key y <> k) w -> k ∈ m.*1 ->
  store_all key (dict_set k x m) w = dict_set k x (store_all key m w).
Proof.
  revert m. induction w as [|y w IH]; intros m Hw Hk; [done|].
  apply Forall_cons in Hw as [Hy Hw]. csimpl.
  rewrite dict_set_comm by done.
  apply IH; [done|]. by apply dict_set_keys_mono.
Qed.

Lemma keyed_nil : keyed key [].
Proof. split; constructor. Qed.

Lemma keyed_set (x : R) (d : list (string * R)) : keyed key d -> keyed key (dict_set (key x) x d).
Proof.
  intros [Hk Hn]. destruct (decide (key x ∈ d.*1)) as [Hin|Hout].
  - split; [|by rewrite dict_set_keys_present].
    clear Hn Hin. induction Hk as [|[k' v'] d Hkv Hk IH]; csimpl.
    + by repeat constructor.
    + destruct (decide (key x = k')); constructor; done.
  - rewrite dict_set_absent by done. split.
    + apply Forall_app. split; [done|]. by repeat constructor.
    + rewrite fmap_app. apply NoDup_app. split; [done|]. split.
      * intros k Hin Hk'. apply list_elem_of_singleton in Hk'. csimpl in Hk'.
        by subst.
      * apply NoDup_singleton.
Qed.

Lemma keyed_store_all (l : list R) (d : list (string * R)) :
  keyed key d -> keyed key (store_all key d l).
Proof.
  revert d. induction l as [|x l IH]; intros d Hd; [done|].
  csimpl. apply IH. by apply keyed_set.
Qed.

Lemma keyed_tail (kv : string * R) (d : list (string * R)) :
  keyed key (kv :: d) ->
  keyed key d /\ Forall (fun y => key y <> kv.1) (dict_values d).
Proof.
  intros [Hk Hn]. apply Forall_cons in Hk as [Hkv Hk].
  csimpl in Hn. apply NoDup_cons in Hn as [Hout Hn].
  split; [by split|].
  unfold dict_values. apply Forall_forall. intros y Hy Heq.
  apply list_elem_of_fmap in Hy as [[k v] [-> Hin]].
  csimpl in Heq. rewrite Forall_forall in Hk.
  specialize (Hk (k, v) Hin). csimpl in Hk.
  apply Hout. apply list_elem_of_fmap. exists (k, v). split; [|done].
  csimpl. congruence.
Qed.

(** Writing the values of a dict after one more write is one more write
    after writing its values. *)
Lemma store_all_values_set (x : R) (d m : list (string * R)) :
  keyed key d ->
  store_all key m (dict_values (dict_set (key x) x d))
  = dict_set (key x) x (store_all key m (dict_values d)).
Proof.
  revert m. induction d as [|[k1 v1] d IH]; intros m Hd; [done|].
  pose proof (keyed_tail _ _ Hd) as [Hd' Hfresh]. csimpl in Hfresh.
  destruct Hd as [Hk _]. apply Forall_cons in Hk as [Hk1 _]. csimpl in Hk1.
  csimpl. destruct (decide (key x = k1)) as [Heq|Hne]; csimpl.
  - rewrite <- Hk1, <- Heq.
    rewrite <- (dict_set_twice (key x) x v1 m) at 1.
    apply store_all_set_present; [by rewrite Heq | apply dict_set_key_in].
  - by apply IH.
Qed.

Lemma store_all_snoc (m : list (string * R)) (l : list R) (x : R) :
  store_all key m (l ++ [x]) = dict_set (key x) x (store_all key m l).
Proof. by rewrite store_all_app. Qed.

(** Writing a collected sequence is writing the sequence itself. *)
Lemma store_all_last_wins (l : list R) (m : list (string * R)) :
  store_all key m (last_wins key l) = store_all key m l.
Proof.
  unfold last_wins. induction l as [|x l IH] using rev_ind; [done|].
  rewrite !store_all_snoc, <- IH.
  apply store_all_values_set, keyed_store_all, keyed_nil.
Qed.

Lemma foldl_store_all_last_wins (ls : list (list R)) (m : list (string * R)) :
  foldl (store_all key) m (map (last_wins key) ls) = store_all key m (concat ls).
Proof.
  revert m. induction ls as [|l ls IH]; intros m; [done|].
  csimpl. by rewrite IH, store_all_last_wins, store_all_app.
Qed.

Lemma foldl_store_all_declared (objs : list Task) (m : list (string * R)) :
  foldl (fun vcs t => store_all key vcs (declared t)) m objs
  = store_all key m (concat (map declared objs)).
Proof.
  revert m. induction objs as [|t objs IH]; intros m; [done|].
  csimpl. by rewrite IH, store_all_app.
Qed.

Lemma named_values_absent (n : string) (d : list (string * R)) :
  keyed key d -> n ∉ d.*1 -> named key n (dict_values d) = [].
Proof.
  intros [Hk _] Hout. unfold named, dict_values.
  induction Hk as [|[k v] d Hkv Hk IH]; [done|]. csimpl in *.
  apply not_elem_of_cons in Hout as [Hne Hout].
  rewrite filter_cons_False by congruence. by apply IH.
Qed.

Lemma named_values_set (n : string) (x : R) (d : list (string * R)) :
  keyed key d ->
  named key n (dict_values (dict_set (key x) x d))
  = if decide (key x = n) then [x] else named key n (dict_values d).
Proof.
  induction d as [|[k1 v1] d IH]; intros Hd.
  - unfold named. csimpl. destruct (decide (key x = n)).
    + by rewrite filter_cons_True.
    + by rewrite filter_cons_False.
  - pose proof (keyed_tail _ _ Hd) as [Hd' _].
    destruct Hd as [Hk Hn]. apply Forall_cons in Hk as [Hk1 _].
    csimpl in Hk1. csimpl in Hn. apply NoDup_cons in Hn as [Hout _].
    specialize (IH Hd'). csimpl.
    destruct (decide (key x = k1)) as [Heq|Hne]; unfold named in *; csimpl.
    + destruct (decide (key x = n)) as [Hx|Hx].
      * rewrite filter_cons_True by done. f_equal.
        apply (named_values_absent n d Hd'). congruence.
      * rewrite filter_cons_False by done.
        rewrite filter_cons_False by congruence. done.
    + destruct (decide (key v1 = n)) as [Hv|Hv].
      * rewrite !filter_cons_True by done.
        rewrite IH.
        destruct (decide (key x = n)); [congruence | done].
      * rewrite !filter_cons_False by done.
        by rewrite IH.
Qed.

(** The entries of the collection under a name: the declaration of that
    name that comes last in the sequence, and no other. *)
Lemma named_last_wins (n : string) (l : list R) :
  named key n (last_wins key l) = option_list (last (named key n l)).
Proof.
  unfold last_wins. induction l as [|x l IH] using rev_ind; [done|].
  rewrite store_all_snoc.
  rewrite named_values_set by apply keyed_store_all, keyed_nil.
  rewrite IH. unfold named. rewrite filter_app.
  destruct (decide (key x = n)) as [Hx|Hx].
  - rewrite filter_cons_True by done. by rewrite filter_nil, last_snoc.
  - rewrite filter_cons_False by done. by rewrite filter_nil, app_nil_r.
Qed.

Lemma keyed_values_NoDup (d : list (string * R)) : keyed key d -> NoDup (key <$> dict_values d).
Proof.
  intros [Hk Hn]. unfold dict_values.
  replace (key <$> d.*2) with d.*1; [done|].
  clear Hn. induction Hk as [|[k v] d Hkv Hk IH]; [done|].
  csimpl in *. by rewrite IH, Hkv.
Qed.

Lemma last_wins_NoDup (l : list R) : NoDup (key <$> last_wins key l).
Proof. apply keyed_values_NoDup, keyed_store_all, keyed_nil. Qed.

Lemma last_named_declared (n : string) (l : list R) (i : nat) (x : R) :
  l !! i = Some x -> key x = n -> exists z, last (named key n l) = Some z.
Proof.
  intros Hi Hx. apply last_is_Some. intros Hnil.
  assert (x ∈ named key n l) as Hin.
  { apply list_elem_of_filter. split; [done|]. by apply list_elem_of_lookup_2 in Hi. }
  rewrite Hnil in Hin. by apply elem_of_nil in Hin.
Qed.

(** The collector returns the pre-order traversal with later declarations
    overwriting earlier ones, and fails exactly where the traversal does. *)
Lemma build_resources_last_wins (fuel : nat) (st : Store) (self : dref) :
  build_resources key declared fuel st self
  = do l <- visit_resources declared fuel st self; Ok (last_wins key l).
Proof.
  revert self. induction fuel as [|fuel IH]; intros self; [done|].
  simpl. destruct (get_dag st self) as [d| |]; simpl; try done.
  destruct (iter (tasks d)) as [ts| |]; simpl; try done.
  destruct (traverse (get_task st) ts) as [objs| |]; simpl; try done.
  rewrite (traverse_bind_map _ _ (last_wins key) _ IH).
  destruct (traverse (visit_resources declared fuel st) (sub_dags_of objs))
    as [below| |]; simpl; try done.
  f_equal. unfold last_wins at 2. f_equal.
  by rewrite foldl_store_all_last_wins, foldl_store_all_declared, store_all_app.
Qed.
End ResourceFacts.

(** C2: over a DAG tree whose traversal is defined (every DAG of the tree has
    a task list), each resource collection holds no name twice; when two
    declarations of the tree carry the same name, at whatever depths, the
    collection holds exactly one entry under that name, the declaration of
    that name visited last in the pre-order traversal (own tasks first, then
    each task's nested DAG); the same holds of a name declared once, and the
    collection holds nothing under a name that is not declared.  This is so
    for the volume-claim templates and for the persistent volumes alike. *)
Theorem shared_resources_last_wins (fuel : nat) (st : Store) (self : dref)
    (claims : list PersistentVolumeClaim) (volumes : list Volume) :
  visit_resources Task_build_volume_claim_templates fuel st self = Ok claims ->
  visit_resources Task_build_persistent_volume_claims fuel st self = Ok volumes ->
  (exists r,
      DAG_build_volume_claim_templates fuel st self = Ok r /\
      NoDup (pvc_metadata_name <$> r) /\
      (forall i j x y,
          i <> j -> claims !! i = Some x -> claims !! j = Some y ->
          pvc_metadata_name x = pvc_metadata_name y ->
          exists z, last (named pvc_metadata_name (pvc_metadata_name x) claims) = Some z /\
                    named pvc_metadata_name (pvc_metadata_name x) r = [z]) /\
      (forall n x, last (named pvc_metadata_name n claims) = Some x ->
                   named pvc_metadata_name n r = [x]) /\
      (forall n, named pvc_metadata_name n claims = [] ->
                 named pvc_metadata_name n r = [])) /\
  (exists r,
      DAG_build_persistent_volume_claims fuel st self = Ok r /\
      NoDup (vol_name <$> r) /\
      (forall i j x y,
          i <> j -> volumes !! i = Some x -> volumes !! j = Some y ->
          vol_name x = vol_name y ->
          exists z, last (named vol_name (vol_name x) volumes) = Some z /\
                    named vol_name (vol_name x) r = [z]) /\
      (forall n x, last (named vol_name n volumes) = Some x ->
                   named vol_name n r = [x]) /\
      (forall n, named vol_name n volumes = [] -> named vol_name n r = [])).
Proof.
  intros Hc Hv. split.
  - exists (last_wins pvc_metadata_name claims).
    unfold DAG_build_volume_claim_templates.
    rewrite build_resources_last_wins, Hc. split; [done|].
    split; [apply last_wins_NoDup|]. split; [|split].
    + intros i j x y _ Hi _ _.
      destruct (last_named_declared pvc_metadata_name _ claims i x Hi eq_refl)
        as [z Hz].
      exists z. split; [done|]. by rewrite named_last_wins, Hz.
    + intros n x Hx. by rewrite named_last_wins, Hx.
    + intros n Hn. by rewrite named_last_wins, Hn.
  - exists (last_wins vol_name volumes).
    unfold DAG_build_persistent_volume_claims.
    rewrite build_resources_last_wins, Hv. split; [done|].
    split; [apply last_wins_NoDup|]. split; [|split].
    + intros i j x y _ Hi _ _.
      destruct (last_named_declared vol_name _ volumes i x Hi eq_refl) as [z Hz].
      exists z. split; [done|]. by rewrite named_last_wins, Hz.
    + intros n x Hx. by rewrite named_last_wins, Hx.
    + intros n Hn. by rewrite named_last_wins, Hn.
Qed.

Lemma shared_resources_last_wins_witness :
  let claims := [mkClaim "data" "1Gi"; mkClaim "data" "5Gi"; mkClaim "logs" "1Gi"] in
  let volumes := [mkVolume "cache" "old-claim"; mkVolume "cache" "new-claim"] in
  (exists r,
      DAG_build_volume_claim_templates 2 shared_store 0 = Ok r /\
      NoDup (pvc_metadata_name <$> r) /\
      (forall i j x y,
          i <> j -> claims !! i = Some x -> claims !! j = Some y ->
          pvc_metadata_name x = pvc_metadata_name y ->
          exists z, last (named pvc_metadata_name (pvc_metadata_name x) claims) = Some z /\
                    named pvc_metadata_name (pvc_metadata_name x) r = [z]) /\
      (forall n x, last (named pvc_metadata_name n claims) = Some x ->
                   named pvc_metadata_name n r = [x]) /\
      (forall n, named pvc_metadata_name n claims = [] ->
                 named pvc_metadata_name n r = [])) /\
  (exists r,
      DAG_build_persistent_volume_claims 2 shared_store 0 = Ok r /\
      NoDup (vol_name <$> r) /\
      (forall i j x y,
          i <> j -> volumes !! i = Some x -> volumes !! j = Some y ->
          vol_name x = vol_name y ->
          exists z, last (named vol_name (vol_name x) volumes) = Some z /\
                    named vol_name (vol_name x) r = [z]) /\
      (forall n x, last (named vol_name n volumes) = Some x ->
                   named vol_name n r = [x]) /\
      (forall n, named vol_name n volumes = [] -> named vol_name n r = [])).
Proof.
  apply (shared_resources_last_wins 2 shared_store 0); reflexivity.
Defined.

(** The same tree, compiled: one claim named [data], the one declared in the
    nested pipeline, in the place the name first took. *)
Example shared_store_compiles :
  DAG_build_volume_claim_templates 2 shared_store 0
  = Ok [mkClaim "data" "5Gi"; mkClaim "logs" "1Gi"] /\
  DAG_build_persistent_volume_claims 2 shared_store 0
  = Ok [mkVolume "cache" "new-claim"].
Proof. split; reflexivity. Qed.

(** ** Template flattening *)

Lemma DAG_build_templates_step (fuel : nat) (st : Store) (self : dref) (d : DAG)
    (ts : list tref) (objs : list Task) :
  dags_of st !! self = Some d ->
  tasks d = Some ts ->
  traverse (get_task st) ts = Ok objs ->
  DAG_build_templates (S fuel) st self
  = do below <- traverse (DAG_build_templates fuel st) (sub_dags_of objs);
    Ok (omap Task_build_template objs ++ concat below).
Proof.
  intros Hd Ht Ho. simpl. unfold get_dag. rewrite Hd. simpl.
  by rewrite Ht, Ho.
Qed.

Lemma DAG_build_dag_tasks_list (st : Store) (self : dref) (d : DAG)
    (ts : list tref) (objs : list Task) :
  dags_of st !! self = Some d ->
  tasks d = Some ts ->
  traverse (get_task st) ts = Ok objs ->
  DAG_build_dag_tasks st self
  = Ok (omap Task_build_dag_task (List.filter (fun t => negb (is_exit_task t)) objs)).
Proof.
  intros Hd Ht Ho. unfold DAG_build_dag_tasks, get_dag. rewrite Hd. simpl.
  by rewrite Ht, Ho.
Qed.

Lemma DAG_build_step (fuel : nat) (st : Store) (self : dref) (d : DAG)
    (outs : list IO) (ts : list tref) (objs : list Task) :
  dags_of st !! self = Some d ->
  outputs d = Some outs ->
  tasks d = Some ts ->
  traverse (get_task st) ts = Ok objs ->
  DAG_build (S fuel) st self
  = do below <- traverse (DAG_build fuel st) (sub_dags_of objs);
    Ok (level_template d outs objs :: concat below).
Proof.
  intros Hd Hout Ht Ho. simpl.
  rewrite (DAG_build_dag_tasks_list st self d ts objs Hd Ht Ho).
  unfold get_dag. rewrite Hd. simpl. rewrite Hout. simpl.
  rewrite Ht. simpl. by rewrite Ho.
Qed.

Lemma visit_resources_step {R : Type} (declared : Task -> list R)
    (fuel : nat) (st : Store) (self : dref) (d : DAG) (ts : list tref)
    (objs : list Task) :
  dags_of st !! self = Some d ->
  tasks d = Some ts ->
  traverse (get_task st) ts = Ok objs ->
  visit_resources declared (S fuel) st self
  = do below <- traverse (visit_resources declared fuel st) (sub_dags_of objs);
    Ok (concat (map declared objs) ++ concat below).
Proof.
  intros Hd Ht Ho. simpl. unfold get_dag. rewrite Hd. simpl.
  rewrite Ht. simpl. by rewrite Ho.
Qed.

(** C1, as the code has it: a workflow over a DAG nested three levels deep
    (one task of the first DAG carries the second, one task of the second
    carries the third, no task of the third carries a DAG), every DAG of which
    has its outputs and tasks as lists, compiles; its template list is the
    templates of the tasks that have one of their own, followed by exactly
    three DAG templates, one for each nesting level, named after the three
    DAGs, parent before child, each once.  When no task has a template of its
    own these three are the whole list. *)
Theorem three_level_templates (n : nat) (st : Store) (w : Workflow)
    (d1 d2 d3 : DAG) (o1 o2 o3 : list IO) (ts1 ts2 ts3 : list tref)
    (L1 L2 L3 : list Task) (r2 r3 : dref) :
  dags_of st !! w_dag w = Some d1 -> outputs d1 = Some o1 -> tasks d1 = Some ts1 ->
  traverse (get_task st) ts1 = Ok L1 -> sub_dags_of L1 = [r2] ->
  dags_of st !! r2 = Some d2 -> outputs d2 = Some o2 -> tasks d2 = Some ts2 ->
  traverse (get_task st) ts2 = Ok L2 -> sub_dags_of L2 = [r3] ->
  dags_of st !! r3 = Some d3 -> outputs d3 = Some o3 -> tasks d3 = Some ts3 ->
  traverse (get_task st) ts3 = Ok L3 -> sub_dags_of L3 = [] ->
  exists spec,
    Workflow_build_spec (3 + n) st w = Ok spec /\
    spec_templates spec
    = omap Task_build_template (L1 ++ L2 ++ L3)
      ++ [level_template d1 o1 L1; level_template d2 o2 L2; level_template d3 o3 L3] /\
    tpl_name <$> [level_template d1 o1 L1; level_template d2 o2 L2;
                  level_template d3 o3 L3]
    = [name d1; name d2; name d3] /\
    (omap Task_build_template (L1 ++ L2 ++ L3) = [] ->
     spec_templates spec
     = [level_template d1 o1 L1; level_template d2 o2 L2; level_template d3 o3 L3]).
Proof.
  intros H1 Ho1 Ht1 HL1 Hs1 H2 Ho2 Ht2 HL2 Hs2 H3 Ho3 Ht3 HL3 Hs3.
  change (3 + n) with (S (S (S n))).
  unfold Workflow_build_spec. unfold get_dag at 1. rewrite H1.
  rewrite (DAG_build_templates_step _ st _ d1 ts1 L1 H1 Ht1 HL1), Hs1.
  cbn [traverse bind].
  rewrite (DAG_build_templates_step _ st _ d2 ts2 L2 H2 Ht2 HL2), Hs2.
  cbn [traverse bind].
  rewrite (DAG_build_templates_step _ st _ d3 ts3 L3 H3 Ht3 HL3), Hs3.
  cbn [traverse bind].
  rewrite (DAG_build_step _ st _ d1 o1 ts1 L1 H1 Ho1 Ht1 HL1), Hs1.
  cbn [traverse bind].
  rewrite (DAG_build_step _ st _ d2 o2 ts2 L2 H2 Ho2 Ht2 HL2), Hs2.
  cbn [traverse bind].
  rewrite (DAG_build_step _ st _ d3 o3 ts3 L3 H3 Ho3 Ht3 HL3), Hs3.
  cbn [traverse bind].
  unfold DAG_build_volume_claim_templates, DAG_build_persistent_volume_claims.
  rewrite !build_resources_last_wins.
  rewrite (visit_resources_step Task_build_volume_claim_templates
             _ st _ d1 ts1 L1 H1 Ht1 HL1),
    (visit_resources_step Task_build_persistent_volume_claims
       _ st _ d1 ts1 L1 H1 Ht1 HL1), Hs1.
  cbn [traverse bind].
  rewrite (visit_resources_step Task_build_volume_claim_templates
             _ st _ d2 ts2 L2 H2 Ht2 HL2),
    (visit_resources_step Task_build_persistent_volume_claims
       _ st _ d2 ts2 L2 H2 Ht2 HL2), Hs2.
  cbn [traverse bind].
  rewrite (visit_resources_step Task_build_volume_claim_templates
             _ st _ d3 ts3 L3 H3 Ht3 HL3),
    (visit_resources_step Task_build_persistent_volume_claims
       _ st _ d3 ts3 L3 H3 Ht3 HL3), Hs3.
  cbn [traverse bind].
  eexists. split; [reflexivity|]. cbn [spec_templates].
  match goal with
  | |- ?lhs = ?rhs /\ _ => assert (lhs = rhs) as Heq
  end.
  { cbn [concat]. rewrite !app_nil_r, !omap_app, <- !app_assoc. done. }
  split; [exact Heq|]. split; [done|].
  intros Hnone. by rewrite Heq, Hnone.
Qed.

Lemma three_level_templates_witness :
  exists spec,
    Workflow_build_spec (3 + 0) chain_store workflow_over_root = Ok spec /\
    spec_templates spec
    = omap Task_build_template ([chain_task_a] ++ [chain_task_b] ++ [])
      ++ [level_template chain_level_1 [] [chain_task_a];
          level_template chain_level_2 [] [chain_task_b];
          level_template chain_level_3 [] []] /\
    tpl_name <$> [level_template chain_level_1 [] [chain_task_a];
                  level_template chain_level_2 [] [chain_task_b];
                  level_template chain_level_3 [] []]
    = [name chain_level_1; name chain_level_2; name chain_level_3] /\
    (omap Task_build_template ([chain_task_a] ++ [chain_task_b] ++ []) = [] ->
     spec_templates spec
     = [level_template chain_level_1 [] [chain_task_a];
        level_template chain_level_2 [] [chain_task_b];
        level_template chain_level_3 [] []]).
Proof.
  apply (three_level_templates 0 chain_store workflow_over_root
           chain_level_1 chain_level_2 chain_level_3 [] [] [] [0] [1] []
           [chain_task_a] [chain_task_b] [] 1 2);
    reflexivity.
Defined.

(** The bare chain compiles to exactly three templates. *)
Example chain_store_compiles :
  exists spec,
    Workflow_build_spec 3 chain_store workflow_over_root = Ok spec /\
    tpl_name <$> spec_templates spec = ["level-1"; "level-2"; "level-3"].
Proof. eexists. split; reflexivity. Qed.

(** C1 as stated fails where the innermost pipeline owns a task with a
    template of its own: the three-level nest compiles to four templates. *)
Lemma three_level_nest_with_work_has_four_templates :
  exists spec,
    Workflow_build_spec 3 three_level_store workflow_over_root = Ok spec /\
    tpl_name <$> spec_templates spec = ["work"; "level-1"; "level-2"; "level-3"] /\
    length (spec_templates spec) = 4.
Proof. eexists. split; [reflexivity|]. split; reflexivity. Qed.

(** ** The exit hook *)

Lemma bind_Ok {A B : Type} (m : result A) (k : A -> result B) (b : B) :
  bind m k = Ok b -> exists a, m = Ok a /\ k a = Ok b.
Proof. destruct m as [a| |]; simpl; [eauto | done | done]. Qed.

Lemma traverse_get_task_descriptors (st : Store) (ts : list tref) (objs : list Task) :
  traverse (get_task st) ts = Ok objs ->
  omap Task_build_dag_task (List.filter (fun t => negb (is_exit_task t)) objs)
  = omap (descriptor_of st) ts.
Proof.
  revert objs. induction ts as [|r ts IH]; intros objs; simpl.
  - by intros [= <-].
  - intros H. apply bind_Ok in H as (t & Ht & H).
    apply bind_Ok in H as (objs' & Hobjs & H). injection H as <-.
    unfold get_task in Ht. unfold descriptor_of at 1.
    destruct (tasks_of st !! r) as [t'|]; [|done]. injection Ht as ->.
    simpl. unfold Task_build_dag_task at 2.
    destruct (is_exit_task t) eqn:He; simpl.
    + by apply IH.
    + unfold Task_build_dag_task at 1. rewrite He. f_equal. by apply IH.
Qed.

Lemma non_exit_descriptors (objs : list Task) :
  omap Task_build_dag_task (List.filter (fun t => negb (is_exit_task t)) objs)
  = (fun t => b_dag_task (t_builds t))
      <$> List.filter (fun t => negb (is_exit_task t)) objs.
Proof.
  induction objs as [|t objs IH]; [done|]. simpl.
  destruct (is_exit_task t) eqn:He; simpl; [done|].
  unfold Task_build_dag_task at 1. rewrite He. f_equal. exact IH.
Qed.

Lemma descriptor_of_flagged (st : Store) (r : tref) (t : Task) :
  is_exit_task t = true -> descriptor_of (set_task st r t) r = None.
Proof.
  intros He. unfold descriptor_of, set_task. simpl.
  rewrite lookup_insert_eq. simpl. unfold Task_build_dag_task. by rewrite He.
Qed.

Lemma descriptor_of_other (st : Store) (r q : tref) (t : Task) :
  q <> r -> descriptor_of (set_task st r t) q = descriptor_of st q.
Proof.
  intros Hne. unfold descriptor_of, set_task. simpl.
  by rewrite lookup_insert_ne.
Qed.

Lemma descriptors_after_flag (st : Store) (r : tref) (t : Task) (ts : list tref) :
  is_exit_task t = true ->
  omap (descriptor_of (set_task st r t)) ts
  = omap (descriptor_of st) (filter (fun q => q <> r) ts).
Proof.
  intros He. induction ts as [|q ts IH]; [done|]. csimpl.
  destruct (decide (q = r)) as [->|Hne].
  - rewrite filter_cons_False by (intros ?; done).
    by rewrite descriptor_of_flagged.
  - rewrite filter_cons_True by done. csimpl.
    by rewrite descriptor_of_other, IH.
Qed.

(** C5: registering a task as the exit hook returns; afterwards the hook
    target is the task's name and the task's exit flag is set; and the
    descriptor list any DAG compiles to is made of its tasks that are not
    flagged as exit tasks, in order, which is the list of descriptors its
    tasks had before with the registered task's left out. *)
Theorem on_exit_task_excluded (wrapper : TaskBuilds) (st : Store) (w : Workflow)
    (r : tref) (t : Task) :
  tasks_of st !! r = Some t ->
  exists w' st',
    Workflow_on_exit wrapper st w (ExitTask r) = (Ok w', st') /\
    on_exit_ w' = Some (t_name t) /\
    (exists t', tasks_of st' !! r = Some t' /\ is_exit_task t' = true /\
                t_name t' = t_name t) /\
    (forall self d ts objs,
        dags_of st' !! self = Some d ->
        tasks d = Some ts ->
        traverse (get_task st') ts = Ok objs ->
        DAG_build_dag_tasks st' self
        = Ok ((fun t => b_dag_task (t_builds t))
                <$> List.filter (fun t => negb (is_exit_task t)) objs) /\
        DAG_build_dag_tasks st' self
        = Ok (omap (descriptor_of st) (filter (fun q => q <> r) ts))).
Proof.
  intros Hr. unfold Workflow_on_exit. rewrite Hr.
  eexists _, _. split; [reflexivity|]. split; [done|]. split.
  - eexists. split; [apply lookup_insert_eq | done].
  - intros self d ts objs Hd Ht Hobjs.
    rewrite (DAG_build_dag_tasks_list _ self d ts objs Hd Ht Hobjs).
    split; [by rewrite non_exit_descriptors|].
    rewrite (traverse_get_task_descriptors _ ts objs Hobjs).
    by rewrite descriptors_after_flag.
Qed.

Lemma on_exit_task_excluded_witness :
  exists w' st',
    Workflow_on_exit (wrapper_builds "unused") cleanup_store workflow_over_root (ExitTask 1)
    = (Ok w', st') /\
    on_exit_ w' = Some "cleanup" /\
    (exists t', tasks_of st' !! 1 = Some t' /\ is_exit_task t' = true /\
                t_name t' = "cleanup") /\
    (forall self d ts objs,
        dags_of st' !! self = Some d ->
        tasks d = Some ts ->
        traverse (get_task st') ts = Ok objs ->
        DAG_build_dag_tasks st' self
        = Ok ((fun t => b_dag_task (t_builds t))
                <$> List.filter (fun t => negb (is_exit_task t)) objs) /\
        DAG_build_dag_tasks st' self
        = Ok (omap (descriptor_of cleanup_store) (filter (fun q => q <> 1) ts))).
Proof.
  apply (on_exit_task_excluded (wrapper_builds "unused") cleanup_store workflow_over_root 1
           (mkTask "cleanup" None false
              (mkTaskBuilds (Some (mkTemplate "cleanup" None None None))
                 (plain_descriptor "cleanup") [] []))).
  reflexivity.
Defined.

(** The pipeline of two tasks, before and after the second is registered. *)
Example cleanup_store_compiles :
  DAG_build_dag_tasks cleanup_store 0
  = Ok [plain_descriptor "work"; plain_descriptor "cleanup"] /\
  DAG_build_dag_tasks
    (Workflow_on_exit (wrapper_builds "unused") cleanup_store workflow_over_root
       (ExitTask 1)).2 0
  = Ok [plain_descriptor "work"].
Proof. split; reflexivity. Qed.

Lemma elem_of_concat {A : Type} (x : A) (l : list A) (ls : list (list A)) :
  l ∈ ls -> x ∈ l -> x ∈ concat ls.
Proof.
  rewrite !list_elem_of_In. intros Hl Hx. apply in_concat. eauto.
Qed.

Lemma traverse_elem_Ok {A B : Type} (f : A -> result B) (l : list A) (ys : list B)
    (x : A) :
  traverse f l = Ok ys -> x ∈ l -> exists y, f x = Ok y /\ y ∈ ys.
Proof.
  revert ys. induction l as [|a l IH]; intros ys H Hx.
  - by apply elem_of_nil in Hx.
  - simpl in H. apply bind_Ok in H as (y & Hy & H).
    apply bind_Ok in H as (ys' & Hys' & H). injection H as <-.
    apply elem_of_cons in Hx as [->|Hx].
    + exists y. split; [done | apply list_elem_of_here].
    + destruct (IH ys' Hys' Hx) as (y' & Hy' & Hin).
      exists y'. split; [done | by apply list_elem_of_further].
Qed.

(** The nested pipeline of an owned task is among the sub-DAGs visited. *)
Lemma nested_dag_visited (st : Store) (ts : list tref) (objs : list Task)
    (t : tref) (obj : Task) (r : dref) :
  traverse (get_task st) ts = Ok objs ->
  t ∈ ts -> tasks_of st !! t = Some obj -> t_dag obj = Some r ->
  r ∈ sub_dags_of objs.
Proof.
  intros Hobjs Ht Hobj Hr.
  destruct (traverse_elem_Ok _ _ _ _ Hobjs Ht) as (obj' & Hget & Hin).
  unfold get_task in Hget. rewrite Hobj in Hget. injection Hget as <-.
  unfold sub_dags_of. apply list_elem_of_omap. eauto.
Qed.

(** No level is dropped: what a nested DAG compiles to is part of what the
    DAG that owns its task compiles to. *)
Lemma nested_templates_included (fuel : nat) (st : Store) (self : dref) (d : DAG)
    (ts : list tref) (t : tref) (obj : Task) (r : dref) (all : list Template) :
  dags_of st !! self = Some d -> tasks d = Some ts ->
  t ∈ ts -> tasks_of st !! t = Some obj -> t_dag obj = Some r ->
  DAG_build_templates (S fuel) st self = Ok all ->
  exists own, DAG_build_templates fuel st r = Ok own /\ forall x, x ∈ own -> x ∈ all.
Proof.
  intros Hd Hts Ht Hobj Hr. simpl. unfold get_dag. rewrite Hd. simpl.
  rewrite Hts. intros H.
  apply bind_Ok in H as (objs & Hobjs & H).
  apply bind_Ok in H as (below & Hbelow & H). injection H as <-.
  pose proof (nested_dag_visited st ts objs t obj r Hobjs Ht Hobj Hr) as Hin.
  destruct (traverse_elem_Ok _ _ _ _ Hbelow Hin) as (own & Hown & Hown_in).
  exists own. split; [done|]. intros x Hx.
  apply elem_of_app. right. by apply (elem_of_concat x own).
Qed.

Lemma nested_build_included (fuel : nat) (st : Store) (self : dref) (d : DAG)
    (ts : list tref) (t : tref) (obj : Task) (r : dref) (all : list Template) :
  dags_of st !! self = Some d -> tasks d = Some ts ->
  t ∈ ts -> tasks_of st !! t = Some obj -> t_dag obj = Some r ->
  DAG_build (S fuel) st self = Ok all ->
  exists built, DAG_build fuel st r = Ok built /\ forall x, x ∈ built -> x ∈ all.
Proof.
  intros Hd Hts Ht Hobj Hr. simpl. unfold get_dag at 1. rewrite Hd. simpl.
  intros H.
  apply bind_Ok in H as (outs & _ & H).
  apply bind_Ok in H as (dag_tasks & _ & H).
  rewrite Hts in H. simpl in H.
  apply bind_Ok in H as (objs & Hobjs & H).
  apply bind_Ok in H as (below & Hbelow & H). injection H as <-.
  pose proof (nested_dag_visited st ts objs t obj r Hobjs Ht Hobj Hr) as Hin.
  destruct (traverse_elem_Ok _ _ _ _ Hbelow Hin) as (built & Hbuilt & Hbuilt_in).
  exists built. split; [done|]. intros x Hx.
  apply list_elem_of_further. by apply (elem_of_concat x built).
Qed.

(** C4, as the code has it: when a DAG is registered as the exit hook while
    the workflow's own DAG is the current context (the workflow's scope is
    the innermost open one) and that DAG has a task list, the registration
    returns, the hook target is the registered DAG's own name, and whenever
    the workflow specification then compiles, every template the registered
    DAG compiles to, those of its tasks and those of the DAGs under it, is in
    the compiled template list. *)
Theorem on_exit_dag_in_scope (wrapper : TaskBuilds) (st : Store) (w : Workflow)
    (r : dref) (d root : DAG) (ts : list tref) (rest : list dref) :
  dags_of st !! r = Some d ->
  dag_context st = w_dag w :: rest ->
  dags_of st !! w_dag w = Some root ->
  tasks root = Some ts ->
  exists w' st',
    Workflow_on_exit wrapper st w (ExitDAG r) = (Ok w', st') /\
    on_exit_ w' = Some (name d) /\
    (exists t,
        tasks_of st !! t = None /\
        tasks_of st' !! t
        = Some (mkTask "temp-name-for-hera-exit-dag" (Some r) true wrapper) /\
        tasks <$> dags_of st' !! w_dag w = Some (Some (ts ++ [t]))) /\
    forall fuel spec,
      Workflow_build_spec (S fuel) st' w' = Ok spec ->
      exists own built,
        DAG_build_templates fuel st' r = Ok own /\
        DAG_build fuel st' r = Ok built /\
        forall x, x ∈ own ++ built -> x ∈ spec_templates spec.
Proof.
  intros Hd Hctx Hroot Hts.
  set (t := fresh (dom (tasks_of st))).
  set (obj := mkTask "temp-name-for-hera-exit-dag" (Some r) false wrapper).
  set (root' := mkDAG (name root) (inputs root) (outputs root) (Some (ts ++ [t]))).
  set (st2 := set_dag (set_task st t obj) (w_dag w) root').
  assert (Task_init st "temp-name-for-hera-exit-dag" (Some r) wrapper = (Ok t, st2))
    as Hinit.
  { unfold Task_init. fold t. fold obj. simpl. rewrite Hctx.
    unfold DAG_add_task. simpl. by rewrite Hroot, Hts. }
  assert (exists d', dags_of st2 !! r = Some d' /\ name d' = name d) as (d' & Hd' & Hname).
  { unfold st2. simpl. destruct (decide (w_dag w = r)) as [Heq|Hne].
    - rewrite Heq, lookup_insert_eq. exists root'. split; [done|].
      rewrite Heq, Hd in Hroot. by injection Hroot as ->.
    - rewrite lookup_insert_ne by done. eauto. }
  set (obj' := mkTask (t_name obj) (t_dag obj) true (t_builds obj)).
  exists (with_on_exit w (name d')), (set_task st2 t obj').
  split; [|split; [|split]].
  - unfold Workflow_on_exit. rewrite Hinit.
    assert (tasks_of st2 !! t = Some obj) as -> by apply lookup_insert_eq.
    by rewrite Hd'.
  - simpl. by rewrite Hname.
  - exists t. split; [apply not_elem_of_dom, is_fresh|]. split.
    + apply lookup_insert_eq.
    + simpl. by rewrite lookup_insert_eq.
  - intros fuel spec Hspec. unfold Workflow_build_spec in Hspec.
    apply bind_Ok in Hspec as (d0 & _ & Hspec).
    apply bind_Ok in Hspec as (own_root & Hown & Hspec).
    apply bind_Ok in Hspec as (built_root & Hbuilt & Hspec).
    apply bind_Ok in Hspec as (claims & _ & Hspec).
    apply bind_Ok in Hspec as (volumes & _ & Hspec).
    injection Hspec as <-. simpl in Hown, Hbuilt.
    assert (dags_of (set_task st2 t obj') !! w_dag w = Some root') as Hroot'
      by apply lookup_insert_eq.
    assert (tasks_of (set_task st2 t obj') !! t = Some obj') as Hobj'
      by apply lookup_insert_eq.
    assert (t ∈ ts ++ [t]) as Hin by (apply elem_of_app; right; apply list_elem_of_here).
    destruct (nested_templates_included fuel _ _ root' _ t obj' r own_root
                Hroot' eq_refl Hin Hobj' eq_refl Hown) as (own & Hown_r & Hown_in).
    destruct (nested_build_included fuel _ _ root' _ t obj' r built_root
                Hroot' eq_refl Hin Hobj' eq_refl Hbuilt) as (built & Hbuilt_r & Hbuilt_in).
    exists own, built. split; [done|]. split; [done|].
    intros x Hx. simpl. apply elem_of_app in Hx as [Hx|Hx]; apply elem_of_app; auto.
Qed.

Lemma on_exit_dag_in_scope_witness :
  exists w' st',
    Workflow_on_exit (wrapper_builds "temp-name-for-hera-exit-dag")
      entered_store entered_workflow (ExitDAG 1) = (Ok w', st') /\
    on_exit_ w' = Some "cleanup-dag" /\
    (exists t,
        tasks_of entered_store !! t = None /\
        tasks_of st' !! t
        = Some (mkTask "temp-name-for-hera-exit-dag" (Some 1) true
                  (wrapper_builds "temp-name-for-hera-exit-dag")) /\
        tasks <$> dags_of st' !! 0 = Some (Some ([] ++ [t]))) /\
    forall fuel spec,
      Workflow_build_spec (S fuel) st' w' = Ok spec ->
      exists own built,
        DAG_build_templates fuel st' 1 = Ok own /\
        DAG_build fuel st' 1 = Ok built /\
        forall x, x ∈ own ++ built -> x ∈ spec_templates spec.
Proof.
  apply (on_exit_dag_in_scope (wrapper_builds "temp-name-for-hera-exit-dag")
           entered_store entered_workflow 1
           (mkDAG "cleanup-dag" [] (Some []) (Some []))
           (mkDAG "main" [] (Some []) (Some [])) [] []);
    reflexivity.
Defined.

(** Inside the workflow's scope the registered pipeline does reach the
    compiled specification. *)
Example on_exit_dag_in_scope_compiles :
  exists w' st' spec,
    Workflow_on_exit (wrapper_builds "temp-name-for-hera-exit-dag")
      entered_store entered_workflow (ExitDAG 1) = (Ok w', st') /\
    Workflow_build_spec 2 st' w' = Ok spec /\
    spec_on_exit spec = Some "cleanup-dag" /\
    spec_templates spec = [empty_template_of "main"; cleanup_dag_template].
Proof. eexists _, _, _. repeat split. Qed.

(** C4 as stated fails for a registration made while no scope is open: the
    hook target is set to the pipeline's name, the workflow compiles, and the
    pipeline's template is not in the compiled list. *)
Lemma on_exit_dag_outside_scope_drops_templates :
  exists w' st' spec,
    Workflow_on_exit (wrapper_builds "temp-name-for-hera-exit-dag")
      exit_dag_store workflow_over_root (ExitDAG 1) = (Ok w', st') /\
    on_exit_ w' = Some "cleanup-dag" /\
    Workflow_build_spec 2 st' w' = Ok spec /\
    DAG_build 1 st' 1 = Ok [cleanup_dag_template] /\
    spec_templates spec = [empty_template_of "main"] /\
    cleanup_dag_template ∉ spec_templates spec.
Proof.
  eexists _, _, _. repeat split.
  intros Hin. apply list_elem_of_singleton in Hin. discriminate Hin.
Qed.

(** ** Submission and the authoring scope *)

(** Inside an open scope [create] raises and leaves the store, and with it
    the service's record of requests, as it was. *)
Lemma create_inside_scope (fuel : nat) (st : Store) (w : Workflow) :
  Workflow_create fuel (Workflow_enter st w).2 (Workflow_enter st w).1
  = (Raise ValueError, (Workflow_enter st w).2) /\
  submitted (Workflow_enter st w).2 = submitted st.
Proof. done. Qed.

(** Once the scope has been left, [create] builds and, if the build returns,
    hands the model to the service. *)
Lemma create_after_exit (fuel : nat) (st : Store) (w : Workflow) (m : ModelWorkflow) :
  Workflow_build fuel (Workflow_exit st w).2 w = Ok m ->
  (Workflow_create fuel (Workflow_exit st w).2 (Workflow_exit st w).1).1 = Ok m /\
  submitted (Workflow_create fuel (Workflow_exit st w).2 (Workflow_exit st w).1).2
  = submitted st ++ [m].
Proof.
  intros Hm. unfold Workflow_create. simpl.
  change (Workflow_build fuel (dag_context_exit st) (with_in_context w false))
    with (Workflow_build fuel (dag_context_exit st) w).
  simpl in Hm. by rewrite Hm.
Qed.

(** The constructor leaves [in_context] unset. *)
Lemma Workflow_init_in_context
    (validate_name : option string -> option string -> result (option string))
    (st st' : Store) (name dag_name : option string) (dag : option dref)
    (generate_name : option string) (ins : inputs_arg) (outs : option (list IO))
    (metrics : metrics_arg) (w : Workflow) :
  Workflow_init validate_name st name dag_name dag generate_name ins outs metrics
  = (Ok w, st') ->
  in_context w = None /\ on_exit_ w = None.
Proof.
  unfold Workflow_init.
  destruct (validate_name name generate_name) as [self_name| |]; try done.
  destruct (match dag_name with
            | Some n => Ok n
            | None => match self_name with
                      | Some n => Ok (rstrip_dash_dot n)
                      | None => Raise AttributeError
                      end
            end) as [dn| |]; try done.
  destruct (match dag with
            | Some d => (Ok d, st)
            | None => DAG_init validate_name st dn InputsNone None None
            end) as [[self_dag| |] st1]; try done.
  destruct (Workflow_parse_metrics metrics) as [self_metrics| |]; try done.
  by intros [= <- _].
Qed.

(** C9, at a workflow that was never used as a scope: it is outside any open
    scope and it builds, yet [create] raises [AttributeError] on reading
    [in_context] and nothing is submitted; the same workflow after a scope
    was entered and left is submitted. *)
Theorem create_on_fresh_workflow_raises :
  exists w st,
    fresh_workflow = (Ok w, st) /\
    in_context w = None /\
    Workflow_build 1 st w = Ok fresh_model /\
    Workflow_create 1 st w = (Raise AttributeError, st) /\
    submitted st = [] /\
    (let (w1, st1) := Workflow_enter st w in
     let (w2, st2) := Workflow_exit st1 w1 in
     Workflow_create 1 st2 w2 = (Ok fresh_model, submit st2 fresh_model)).
Proof. eexists _, _. repeat split. Qed.

(** ** Back-references *)

Lemma find_by_name_None {A : Type} (nm : A -> string) (n : string) (l : list A) :
  List.find (fun p => String.eqb (nm p) n) l = None <-> n ∉ nm <$> l.
Proof.
  induction l as [|p l IH]; csimpl.
  - split; [intros _; apply not_elem_of_nil | done].
  - rewrite not_elem_of_cons. destruct (String.eqb_spec (nm p) n) as [Heq|Hne].
    + split; [done | intros [Hn _]; congruence].
    + rewrite IH. split; [intros H; split; [congruence | done] | by intros [_ H]].
Qed.

(** On a DAG whose outputs are a list, the lookup fails exactly for the names
    that are not declared, and a declared name yields the pipeline-local
    reference. *)
Lemma DAG_get_parameter_declared (st : Store) (self : dref) (d : DAG)
    (outs : list IO) (n : string) :
  dags_of st !! self = Some d ->
  outputs d = Some outs ->
  (DAG_get_parameter st self n = Raise KeyError <-> n ∉ io_name <$> outs) /\
  (n ∈ io_name <$> outs ->
   DAG_get_parameter st self n
   = Ok (mkParameter n (PyStr ("{{inputs.parameters." +:+ n +:+ "}}")))).
Proof.
  intros Hd Ho. unfold DAG_get_parameter, get_dag. rewrite Hd. simpl.
  rewrite Ho. simpl.
  pose proof (find_by_name_None io_name n outs) as Hfind.
  destruct (List.find _ outs) as [p|].
  - split.
    + split; [done|]. intros Hn. by apply Hfind in Hn.
    + done.
  - split.
    + split; [intros _; by apply Hfind | done].
    + intros Hin. by apply Hfind in Hin.
Qed.

(** On a workflow the lookup fails exactly for the names that are not among
    its parameter inputs, and a declared name yields the global reference. *)
Lemma Workflow_get_parameter_declared (w : Workflow) (n : string) :
  (Workflow_get_parameter w n = Raise KeyError
   <-> n ∉ p_name <$> parameters_of (w_inputs w)) /\
  (n ∈ p_name <$> parameters_of (w_inputs w) ->
   Workflow_get_parameter w n
   = Ok (mkParameter n (PyStr ("{{workflow.parameters." +:+ n +:+ "}}")))).
Proof.
  unfold Workflow_get_parameter.
  pose proof (find_by_name_None p_name n (parameters_of (w_inputs w))) as Hfind.
  destruct (List.find _ (parameters_of (w_inputs w))) as [p|].
  - split.
    + split; [done|]. intros Hn. by apply Hfind in Hn.
    + done.
  - split.
    + split; [intros _; by apply Hfind | done].
    + intros Hin. by apply Hfind in Hin.
Qed.

(** C6, at [DAG("d")]: no output is declared, so no name is among the
    declared outputs, yet the lookup raises [TypeError] and not the lookup
    failure [KeyError]; with the outputs given as the empty list the same
    lookup raises [KeyError]. *)
Theorem get_parameter_without_outputs_raises_TypeError :
  DAG_get_parameter bare_dag_store 0 "x" = Raise TypeError /\
  DAG_get_parameter empty_dag_store 0 "x" = Raise KeyError.
Proof. split; reflexivity. Qed.

(** * Further properties *)

(** ** Adding tasks *)


Lemma set_dag_same (st : Store) (self : dref) (d : DAG) :
  dags_of st !! self = Some d -> set_dag st self d = st.
Proof.
  intros Hd. destruct st as [ts ds ctx sub]. unfold set_dag. simpl in *.
  by rewrite insert_id.
Qed.

Lemma set_dag_twice (st : Store) (self : dref) (d1 d2 : DAG) :
  set_dag (set_dag st self d1) self d2 = set_dag st self d2.
Proof. unfold set_dag. simpl. by rewrite insert_insert_eq. Qed.

Lemma DAG_add_tasks_list (st : Store) (self : dref) (d : DAG) (old ts : list tref) :
  dags_of st !! self = Some d -> tasks d = Some old ->
  DAG_add_tasks st self ts
  = (Ok self, set_dag st self (mkDAG (name d) (inputs d) (outputs d) (Some (old ++ ts)))).
Proof. intros Hd Ht. unfold DAG_add_tasks. by rewrite Hd, Ht. Qed.

Lemma add_each_list (ts : list tref) (st : Store) (self : dref) (d : DAG)
    (old : list tref) :
  dags_of st !! self = Some d -> tasks d = Some old ->
  add_each st self ts
  = (Ok self, set_dag st self (mkDAG (name d) (inputs d) (outputs d) (Some (old ++ ts)))).
Proof.
  revert st d old. induction ts as [|t ts IH]; intros st d old Hd Ht.
  - simpl. rewrite app_nil_r, <- Ht.
    replace (mkDAG (name d) (inputs d) (outputs d) (tasks d)) with d by by destruct d.
    by rewrite set_dag_same.
  - simpl. unfold DAG_add_task. rewrite Hd, Ht.
    rewrite (IH _ (mkDAG (name d) (inputs d) (outputs d) (Some (old ++ [t]))) (old ++ [t]));
      [|apply lookup_insert_eq|done].
    simpl. by rewrite set_dag_twice, <- app_assoc.
Qed.



(** X2: on a DAG that has a task list, [add_tasks] has the effect of calling
    [add_task] on each task in turn: the tasks are appended in the order
    given.  On a DAG without a task list it raises [AttributeError] and
    leaves the store as it was, even when it is given no task at all, where
    calling [add_task] zero times does nothing. *)
Theorem add_tasks_is_repeated_add_task (st : Store) (self : dref) (d : DAG) :
  dags_of st !! self = Some d ->
  (forall old ts,
      tasks d = Some old ->
      DAG_add_tasks st self ts = add_each st self ts /\
      exists st',
        DAG_add_tasks st self ts = (Ok self, st') /\
        tasks <$> dags_of st' !! self = Some (Some (old ++ ts))) /\
  (tasks d = None ->
   (forall ts, DAG_add_tasks st self ts = (Raise AttributeError, st)) /\
   add_each st self [] = (Ok self, st)).
Proof.
  intros Hd. split.
  - intros old ts Ht.
    rewrite (add_each_list ts st self d old Hd Ht).
    rewrite (DAG_add_tasks_list st self d old ts Hd Ht).
    split; [done|]. eexists. split; [reflexivity|].
    simpl. by rewrite lookup_insert_eq.
  - intros Ht. split; [|done].
    intros ts. unfold DAG_add_tasks. by rewrite Hd, Ht.
Qed.

Lemma add_tasks_is_repeated_add_task_witness :
  (forall old ts,
      tasks (mkDAG "main" [] (Some []) (Some [0; 1])) = Some old ->
      DAG_add_tasks cleanup_store 0 ts = add_each cleanup_store 0 ts /\
      exists st',
        DAG_add_tasks cleanup_store 0 ts = (Ok 0, st') /\
        tasks <$> dags_of st' !! 0 = Some (Some (old ++ ts))) /\
  (tasks (mkDAG "main" [] (Some []) (Some [0; 1])) = None ->
   (forall ts, DAG_add_tasks cleanup_store 0 ts = (Raise AttributeError, cleanup_store)) /\
   add_each cleanup_store 0 [] = (Ok 0, cleanup_store)).
Proof.
  apply (add_tasks_is_repeated_add_task cleanup_store 0
           (mkDAG "main" [] (Some []) (Some [0; 1]))).
  reflexivity.
Defined.

(** ** Back-references on declared values *)

Lemma elem_of_parameters_of (p : Param) (xs : list IO) :
  p ∈ parameters_of xs <-> IsParameter p ∈ xs.
Proof.
  unfold parameters_of. rewrite list_elem_of_omap. split.
  - intros (x & Hx & Hp). destruct x as [q|a]; [|done]. by injection Hp as ->.
  - intros Hp. by exists (IsParameter p).
Qed.

Lemma io_name_of_artifact (a : Artifact) (xs : list IO) :
  IsArtifact a ∈ xs -> a_name a ∈ io_name <$> xs.
Proof. intros Ha. apply list_elem_of_fmap. by exists (IsArtifact a). Qed.

(** X3: on a DAG whose outputs are a list, [get_parameter] fails only with
    [KeyError], and does so exactly for the names that no output carries;
    for the name of any output, parameter or artifact alike, it returns a
    parameter of that name whose value is the reference
    [{{inputs.parameters.NAME}}]. *)
Theorem DAG_get_parameter_on_outputs (st : Store) (self : dref) (d : DAG)
    (outs : list IO) (n : string) :
  dags_of st !! self = Some d ->
  outputs d = Some outs ->
  (DAG_get_parameter st self n = Raise KeyError <-> n ∉ io_name <$> outs) /\
  (forall e, DAG_get_parameter st self n = Raise e -> e = KeyError) /\
  DAG_get_parameter st self n <> Stuck /\
  (n ∈ io_name <$> outs ->
   DAG_get_parameter st self n
   = Ok (mkParameter n (PyStr ("{{inputs.parameters." +:+ n +:+ "}}")))) /\
  (forall a, IsArtifact a ∈ outs ->
             DAG_get_parameter st self (a_name a)
             = Ok (mkParameter (a_name a)
                     (PyStr ("{{inputs.parameters." +:+ a_name a +:+ "}}")))).
Proof.
  intros Hd Ho.
  destruct (DAG_get_parameter_declared st self d outs n Hd Ho) as [Hkey Hok].
  split; [exact Hkey|]. split; [|split; [|split; [exact Hok|]]].
  - intros e He. destruct (decide (n ∈ io_name <$> outs)) as [Hin|Hout].
    + rewrite (Hok Hin) in He. done.
    + apply Hkey in Hout. rewrite Hout in He. by injection He as <-.
  - destruct (decide (n ∈ io_name <$> outs)) as [Hin|Hout].
    + by rewrite (Hok Hin).
    + apply Hkey in Hout. by rewrite Hout.
  - intros a Ha.
    destruct (DAG_get_parameter_declared st self d outs (a_name a) Hd Ho) as [_ Hok'].
    apply Hok'. by apply io_name_of_artifact.
Qed.

Lemma DAG_get_parameter_on_outputs_witness :
  let outs := [IsParameter (mkParameter "rows" PyNone); IsArtifact (mkArtifact "report" "/tmp/r")] in
  let st := (DAG_init accept_name empty_store "d" InputsNone (Some outs) (Some [])).2 in
  (DAG_get_parameter st 0 "report" = Raise KeyError <-> "report" ∉ io_name <$> outs) /\
  (forall e, DAG_get_parameter st 0 "report" = Raise e -> e = KeyError) /\
  DAG_get_parameter st 0 "report" <> Stuck /\
  ("report" ∈ io_name <$> outs ->
   DAG_get_parameter st 0 "report"
   = Ok (mkParameter "report" (PyStr ("{{inputs.parameters." +:+ "report" +:+ "}}")))) /\
  (forall a, IsArtifact a ∈ outs ->
             DAG_get_parameter st 0 (a_name a)
             = Ok (mkParameter (a_name a)
                     (PyStr ("{{inputs.parameters." +:+ a_name a +:+ "}}")))).
Proof.
  apply (DAG_get_parameter_on_outputs _ 0
           (mkDAG "d" [] (Some [IsParameter (mkParameter "rows" PyNone);
                                IsArtifact (mkArtifact "report" "/tmp/r")]) (Some [])));
    reflexivity.
Defined.

(** X4: [Workflow.get_parameter] fails only with [KeyError], and does so
    exactly for the names that no parameter among the workflow's inputs
    carries; for a parameter's name it returns a parameter of that name whose
    value is the reference [{{workflow.parameters.NAME}}].  Artifacts do not
    count: the name of an input artifact that no parameter shares is a
    [KeyError]. *)
Theorem Workflow_get_parameter_on_inputs (w : Workflow) (n : string) :
  (Workflow_get_parameter w n = Raise KeyError
   <-> forall p, IsParameter p ∈ w_inputs w -> p_name p <> n) /\
  (forall e, Workflow_get_parameter w n = Raise e -> e = KeyError) /\
  Workflow_get_parameter w n <> Stuck /\
  (forall p, IsParameter p ∈ w_inputs w ->
             Workflow_get_parameter w (p_name p)
             = Ok (mkParameter (p_name p)
                     (PyStr ("{{workflow.parameters." +:+ p_name p +:+ "}}")))) /\
  (forall a, IsArtifact a ∈ w_inputs w ->
             (forall p, IsParameter p ∈ w_inputs w -> p_name p <> a_name a) ->
             Workflow_get_parameter w (a_name a) = Raise KeyError).
Proof.
  assert (forall m, m ∉ p_name <$> parameters_of (w_inputs w)
                    <-> forall p, IsParameter p ∈ w_inputs w -> p_name p <> m) as Hnames.
  { intros m. rewrite list_elem_of_fmap. split.
    - intros Hno p Hp Heq. apply Hno. exists p. split; [done|].
      by apply elem_of_parameters_of.
    - intros Hno (p & -> & Hp). apply (Hno p); [|done].
      by apply elem_of_parameters_of. }
  destruct (Workflow_get_parameter_declared w n) as [Hkey Hok].
  split; [by rewrite Hkey, Hnames|]. split; [|split; [|split]].
  - intros e He. destruct (decide (n ∈ p_name <$> parameters_of (w_inputs w))) as [Hin|Hout].
    + rewrite (Hok Hin) in He. done.
    + apply Hkey in Hout. rewrite Hout in He. by injection He as <-.
  - destruct (decide (n ∈ p_name <$> parameters_of (w_inputs w))) as [Hin|Hout].
    + by rewrite (Hok Hin).
    + apply Hkey in Hout. by rewrite Hout.
  - intros p Hp. destruct (Workflow_get_parameter_declared w (p_name p)) as [_ Hok'].
    apply Hok'. apply list_elem_of_fmap. exists p. split; [done|].
    by apply elem_of_parameters_of.
  - intros a _ Hno. destruct (Workflow_get_parameter_declared w (a_name a)) as [Hkey' _].
    apply Hkey'. by apply Hnames.
Qed.

Lemma Workflow_init_fields
    (validate_name : option string -> option string -> result (option string))
    (st st' : Store) (name dag_name : option string) (dag : option dref)
    (generate_name : option string) (ins : inputs_arg) (outs : option (list IO))
    (metrics : metrics_arg) (w : Workflow) :
  Workflow_init validate_name st name dag_name dag generate_name ins outs metrics
  = (Ok w, st') ->
  validate_name name generate_name = Ok (w_name w) /\
  w_generate_name w = generate_name /\
  w_inputs w = Workflow_parse_inputs ins /\
  w_outputs w = default [] outs /\
  Workflow_parse_metrics metrics = Ok (w_metrics w) /\
  (forall d, dag = Some d -> w_dag w = d /\ st' = st).
Proof.
  unfold Workflow_init.
  destruct (validate_name name generate_name) as [self_name| |]; try done.
  destruct (match dag_name with
            | Some n => Ok n
            | None => match self_name with
                      | Some n => Ok (rstrip_dash_dot n)
                      | None => Raise AttributeError
                      end
            end) as [dn| |]; try done.
  destruct dag as [d|].
  - destruct (Workflow_parse_metrics metrics) as [self_metrics| |]; try done.
    intros [= <- <-]. do 5 (split; [done|]). by intros d' [= ->].
  - destruct (DAG_init validate_name st dn InputsNone None None)
      as [[self_dag| |] st1]; try done.
    destruct (Workflow_parse_metrics metrics) as [self_metrics| |]; try done.
    intros [= <- <-]. do 5 (split; [done|]). done.
Qed.

Lemma parameter_names_of_dict (d : pydict) :
  p_name <$> parameters_of (map entry_parameter d) = d.*1.
Proof.
  induction d as [|[k v] d IH]; [done|].
  unfold parameters_of in *. csimpl. by rewrite IH.
Qed.

(** X5: when a workflow is constructed with a dict as its inputs, exactly the
    keys of the dict can be referenced: [get_parameter] returns the global
    reference for every key and raises [KeyError] for every other name. *)
Theorem Workflow_dict_inputs_are_referenced
    (validate_name : option string -> option string -> result (option string))
    (st st' : Store) (name dag_name : option string) (dag : option dref)
    (generate_name : option string) (d : pydict) (outs : option (list IO))
    (metrics : metrics_arg) (w : Workflow) :
  Workflow_init validate_name st name dag_name dag generate_name (InputsDict d) outs
    metrics = (Ok w, st') ->
  forall k,
    (k ∈ d.*1 ->
     Workflow_get_parameter w k
     = Ok (mkParameter k (PyStr ("{{workflow.parameters." +:+ k +:+ "}}")))) /\
    (k ∉ d.*1 -> Workflow_get_parameter w k = Raise KeyError).
Proof.
  intros Hinit k.
  destruct (Workflow_init_fields _ _ _ _ _ _ _ _ _ _ _ Hinit)
    as (_ & _ & Hin & _).
  destruct (Workflow_get_parameter_declared w k) as [Hkey Hok].
  assert (p_name <$> parameters_of (w_inputs w) = d.*1) as Hnames.
  { rewrite Hin. simpl. rewrite append_items_app. simpl.
    apply parameter_names_of_dict. }
  rewrite Hnames in Hkey, Hok. split; [exact Hok | apply Hkey].
Qed.

Lemma Workflow_dict_inputs_are_referenced_witness :
  let d := [("rows", PyInt 10); ("mode", PyStr "fast")] in
  let w := mkWorkflow (Some "w") None 0 (Workflow_parse_inputs (InputsDict d))
             [] None None None in
  ("mode" ∈ d.*1 ->
   Workflow_get_parameter w "mode"
   = Ok (mkParameter "mode" (PyStr ("{{workflow.parameters." +:+ "mode" +:+ "}}")))) /\
  ("mode" ∉ d.*1 -> Workflow_get_parameter w "mode" = Raise KeyError).
Proof.
  apply (Workflow_dict_inputs_are_referenced accept_name empty_dag_store empty_dag_store
           (Some "w") (Some "hera-dag") (Some 0) None
           [("rows", PyInt 10); ("mode", PyStr "fast")] None MetricsNone).
  reflexivity.
Defined.

(** ** The input normalizer, again *)




(** ** Shared resources: order and provenance *)

Section ResourceOrder.
Context {R : Type} (key : R -> string) (declared : Task -> list R).

Lemma dict_set_keys (k : string) (v : R) (d : list (string * R)) :
  (dict_set k v d).*1 = if decide (k ∈ d.*1) then d.*1 else d.*1 ++ [k].
Proof.
  destruct (decide (k ∈ d.*1)) as [Hin|Hout].
  - by apply dict_set_keys_present.
  - rewrite dict_set_absent by done. by rewrite fmap_app.
Qed.

Lemma store_all_keys (l : list R) (m : list (string * R)) :
  (store_all key m l).*1
  = foldl (fun seen n => if decide (n ∈ seen) then seen else seen ++ [n])
      m.*1 (key <$> l).
Proof.
  revert m. induction l as [|x l IH]; intros m; [done|].
  csimpl. by rewrite IH, dict_set_keys.
Qed.

Lemma keyed_values_keys (d : list (string * R)) :
  keyed key d -> key <$> dict_values d = d.*1.
Proof.
  intros [Hk _]. unfold dict_values.
  induction Hk as [|[k v] d Hkv Hk IH]; [done|].
  csimpl in *. by rewrite IH, Hkv.
Qed.

Lemma last_wins_names (l : list R) : key <$> last_wins key l = first_seen (key <$> l).
Proof.
  unfold last_wins, first_seen.
  rewrite keyed_values_keys by apply keyed_store_all, keyed_nil.
  by rewrite store_all_keys.
Qed.

Lemma last_wins_declared (l : list R) (v : R) : v ∈ last_wins key l -> v ∈ l.
Proof.
  intros Hv.
  assert (v ∈ named key (key v) (last_wins key l)) as Hnamed
    by (by apply list_elem_of_filter).
  rewrite named_last_wins in Hnamed.
  destruct (last (named key (key v) l)) as [z|] eqn:Hlast; simpl in Hnamed.
  - apply list_elem_of_singleton in Hnamed as ->.
    apply last_Some_elem_of in Hlast. by apply list_elem_of_filter in Hlast as [_ ?].
  - by apply elem_of_nil in Hnamed.
Qed.

Lemma dict_set_length (k : string) (v : R) (d : list (string * R)) :
  length (dict_set k v d) <= S (length d).
Proof.
  induction d as [|[k' v'] d IH]; simpl; [lia|].
  destruct (decide (k = k')); simpl; lia.
Qed.

Lemma store_all_length (l : list R) (m : list (string * R)) :
  length (store_all key m l) <= length m + length l.
Proof.
  revert m. induction l as [|x l IH]; intros m; simpl; [lia|].
  pose proof (IH (dict_set (key x) x m)).
  pose proof (dict_set_length (key x) x m). lia.
Qed.

Lemma last_wins_length (l : list R) : length (last_wins key l) <= length l.
Proof.
  unfold last_wins, dict_values. rewrite length_fmap.
  apply (store_all_length l []).
Qed.

Lemma last_wins_again (l : list R) : last_wins key (last_wins key l) = last_wins key l.
Proof. unfold last_wins at 1 3. by rewrite store_all_last_wins. Qed.
End ResourceOrder.

(** X7: over a DAG tree whose traversal is defined, each resource collection
    lists its names in the order in which the pre-order traversal first meets
    them, each name once; every entry of the collection is one of the
    declarations of the tree; the collection is never longer than the
    sequence of declarations; and collecting a collection again changes
    nothing. *)
Theorem shared_resources_keep_first_place (fuel : nat) (st : Store) (self : dref)
    (claims : list PersistentVolumeClaim) (volumes : list Volume) :
  visit_resources Task_build_volume_claim_templates fuel st self = Ok claims ->
  visit_resources Task_build_persistent_volume_claims fuel st self = Ok volumes ->
  (exists r,
      DAG_build_volume_claim_templates fuel st self = Ok r /\
      pvc_metadata_name <$> r = first_seen (pvc_metadata_name <$> claims) /\
      (forall v, v ∈ r -> v ∈ claims) /\
      length r <= length claims /\
      last_wins pvc_metadata_name r = r) /\
  (exists r,
      DAG_build_persistent_volume_claims fuel st self = Ok r /\
      vol_name <$> r = first_seen (vol_name <$> volumes) /\
      (forall v, v ∈ r -> v ∈ volumes) /\
      length r <= length volumes /\
      last_wins vol_name r = r).
Proof.
  intros Hc Hv. split.
  - exists (last_wins pvc_metadata_name claims).
    unfold DAG_build_volume_claim_templates.
    rewrite build_resources_last_wins, Hc. split; [done|].
    split; [apply last_wins_names|]. split; [apply last_wins_declared|].
    split; [apply last_wins_length | apply last_wins_again].
  - exists (last_wins vol_name volumes).
    unfold DAG_build_persistent_volume_claims.
    rewrite build_resources_last_wins, Hv. split; [done|].
    split; [apply last_wins_names|]. split; [apply last_wins_declared|].
    split; [apply last_wins_length | apply last_wins_again].
Qed.

Lemma shared_resources_keep_first_place_witness :
  let claims := [mkClaim "data" "1Gi"; mkClaim "data" "5Gi"; mkClaim "logs" "1Gi"] in
  let volumes := [mkVolume "cache" "old-claim"; mkVolume "cache" "new-claim"] in
  (exists r,
      DAG_build_volume_claim_templates 2 shared_store 0 = Ok r /\
      pvc_metadata_name <$> r = first_seen (pvc_metadata_name <$> claims) /\
      (forall v, v ∈ r -> v ∈ claims) /\
      length r <= length claims /\
      last_wins pvc_metadata_name r = r) /\
  (exists r,
      DAG_build_persistent_volume_claims 2 shared_store 0 = Ok r /\
      vol_name <$> r = first_seen (vol_name <$> volumes) /\
      (forall v, v ∈ r -> v ∈ volumes) /\
      length r <= length volumes /\
      last_wins vol_name r = r).
Proof.
  apply (shared_resources_keep_first_place 2 shared_store 0); reflexivity.
Defined.

(** ** What the compiler returns and how it fails *)










(** The template [build] puts first is the DAG's own. *)
Lemma DAG_build_head (fuel : nat) (st : Store) (self : dref) (all : list Template) :
  DAG_build fuel st self = Ok all ->
  exists d outs dag_tasks rest,
    dags_of st !! self = Some d /\
    outputs d = Some outs /\
    DAG_build_dag_tasks st self = Ok dag_tasks /\
    all = mkTemplate (name d)
            (Some (mkInputs (parameters_of (inputs d)) (artifacts_of (inputs d))))
            (Some (mkOutputs (parameters_of outs) (artifacts_of outs)))
            (Some (mkDAGTemplate dag_tasks)) :: rest.
Proof.
  destruct fuel as [|fuel]; [done|]. simpl. unfold get_dag at 1.
  destruct (dags_of st !! self) as [d|]; simpl; [|done].
  destruct (outputs d) as [outs|] eqn:Houts; simpl; [|done].
  destruct (DAG_build_dag_tasks st self) as [dag_tasks| |]; simpl; try done.
  intros H. apply bind_Ok in H as (ts & _ & H).
  apply bind_Ok in H as (objs & _ & H).
  apply bind_Ok in H as (below & _ & H). injection H as <-.
  by exists d, outs, dag_tasks, (concat below).
Qed.






(** X10: a nested pipeline is never dropped, whether or not the task that
    carries it is an exit task: when a DAG compiles, the DAG carried by any
    of its tasks compiles too, and every template of the nested DAG, from
    either pass, is among the templates of the DAG that owns the task. *)
Theorem nested_pipeline_is_compiled (fuel : nat) (st : Store) (self : dref) (d : DAG)
    (ts : list tref) (t : tref) (obj : Task) (r : dref) (own built : list Template) :
  dags_of st !! self = Some d -> tasks d = Some ts ->
  t ∈ ts -> tasks_of st !! t = Some obj -> t_dag obj = Some r ->
  DAG_build_templates (S fuel) st self = Ok own ->
  DAG_build (S fuel) st self = Ok built ->
  exists own' built',
    DAG_build_templates fuel st r = Ok own' /\
    DAG_build fuel st r = Ok built' /\
    (forall x, x ∈ own' -> x ∈ own) /\
    (forall x, x ∈ built' -> x ∈ built).
Proof.
  intros Hd Hts Ht Hobj Hr Hown Hbuilt.
  destruct (nested_templates_included fuel st self d ts t obj r own
              Hd Hts Ht Hobj Hr Hown) as (own' & Hown' & Hin).
  destruct (nested_build_included fuel st self d ts t obj r built
              Hd Hts Ht Hobj Hr Hbuilt) as (built' & Hbuilt' & Hin').
  by exists own', built'.
Qed.

Lemma nested_pipeline_is_compiled_witness :
  exists own' built',
    DAG_build_templates 1 three_level_store 2 = Ok own' /\
    DAG_build 1 three_level_store 2 = Ok built' /\
    (forall x, x ∈ own' -> x ∈ [mkTemplate "work" None None None]) /\
    (forall x, x ∈ built' ->
               x ∈ [level_template (mkDAG "level-2" [] (Some []) (Some [1])) []
                      [mkTask "b" (Some 2) false (wrapper_builds "b")];
                    level_template (mkDAG "level-3" [] (Some []) (Some [2])) []
                      [mkTask "work" None false
                         (mkTaskBuilds (Some (mkTemplate "work" None None None))
                            (plain_descriptor "work") [] [])]]).
Proof.
  apply (nested_pipeline_is_compiled 1 three_level_store 1
           (mkDAG "level-2" [] (Some []) (Some [1])) [1] 1
           (mkTask "b" (Some 2) false (wrapper_builds "b")) 2);
    try reflexivity.
  apply list_elem_of_here.
Defined.

(** ** The compiled specification *)

Lemma elem_of_artifacts_of (a : Artifact) (xs : list IO) :
  a ∈ artifacts_of xs <-> IsArtifact a ∈ xs.
Proof.
  unfold artifacts_of. rewrite list_elem_of_omap. split.
  - intros (x & Hx & Ha). destruct x as [p|b]; [done|]. by injection Ha as ->.
  - intros Ha. by exists (IsArtifact a).
Qed.

Lemma parameters_artifacts_length (xs : list IO) :
  length (parameters_of xs) + length (artifacts_of xs) = length xs.
Proof.
  unfold parameters_of, artifacts_of.
  induction xs as [|[p|a] xs IH]; csimpl; lia.
Qed.

(** X11: when [_build_spec] returns, the specification is consistent with
    the workflow: the entry point is the name of the workflow's DAG and names
    a DAG template of the template list; the exit hook and the metrics are
    the workflow's; every input is passed as exactly one argument, a
    parameter or an artifact, and nothing else is; and neither of the two
    lists of shared resources names a resource twice. *)
Theorem build_spec_is_consistent (fuel : nat) (st : Store) (w : Workflow)
    (spec : WorkflowSpec) :
  Workflow_build_spec fuel st w = Ok spec ->
  (exists d t,
      dags_of st !! w_dag w = Some d /\
      spec_entrypoint spec = name d /\
      t ∈ spec_templates spec /\
      tpl_name t = spec_entrypoint spec /\
      is_Some (tpl_dag t)) /\
  spec_on_exit spec = on_exit_ w /\
  spec_metrics spec = w_metrics w /\
  (forall x, x ∈ w_inputs w <->
             (exists p, x = IsParameter p /\ p ∈ spec_arguments_parameters spec) \/
             (exists a, x = IsArtifact a /\ a ∈ spec_arguments_artifacts spec)) /\
  length (spec_arguments_parameters spec) + length (spec_arguments_artifacts spec)
  = length (w_inputs w) /\
  NoDup (pvc_metadata_name <$> spec_volume_claim_templates spec) /\
  NoDup (vol_name <$> spec_volumes spec).
Proof.
  unfold Workflow_build_spec. intros H.
  apply bind_Ok in H as (d & Hd & H).
  apply bind_Ok in H as (own & Hown & H).
  apply bind_Ok in H as (built & Hbuilt & H).
  apply bind_Ok in H as (claims & Hclaims & H).
  apply bind_Ok in H as (volumes & Hvolumes & H). injection H as <-. simpl.
  unfold get_dag in Hd. destruct (dags_of st !! w_dag w) as [d'|] eqn:Hd'; [|done].
  injection Hd as ->.
  destruct (DAG_build_head fuel st (w_dag w) built Hbuilt)
    as (d0 & outs & dag_tasks & rest & Hd0 & _ & _ & ->).
  rewrite Hd' in Hd0. injection Hd0 as <-.
  split; [|split; [done|split; [done|split; [|split; [|split]]]]].
  - eexists d, _. split; [done|]. split; [done|]. split.
    + apply elem_of_app. right. apply list_elem_of_here.
    + split; [done | by eexists].
  - intros x. split.
    + intros Hx. destruct x as [p|a].
      * left. exists p. split; [done|]. by apply elem_of_parameters_of.
      * right. exists a. split; [done|]. by apply elem_of_artifacts_of.
    + intros [(p & -> & Hp)|(a & -> & Ha)].
      * by apply elem_of_parameters_of.
      * by apply elem_of_artifacts_of.
  - apply parameters_artifacts_length.
  - unfold DAG_build_volume_claim_templates in Hclaims.
    rewrite build_resources_last_wins in Hclaims.
    apply bind_Ok in Hclaims as (l & _ & Hl). injection Hl as <-.
    apply last_wins_NoDup.
  - unfold DAG_build_persistent_volume_claims in Hvolumes.
    rewrite build_resources_last_wins in Hvolumes.
    apply bind_Ok in Hvolumes as (l & _ & Hl). injection Hl as <-.
    apply last_wins_NoDup.
Qed.

Lemma build_spec_is_consistent_witness :
  exists spec,
    Workflow_build_spec 2 shared_store workflow_over_root = Ok spec /\
    (exists d t,
        dags_of shared_store !! w_dag workflow_over_root = Some d /\
        spec_entrypoint spec = name d /\
        t ∈ spec_templates spec /\
        tpl_name t = spec_entrypoint spec /\
        is_Some (tpl_dag t)) /\
    spec_on_exit spec = on_exit_ workflow_over_root /\
    spec_metrics spec = w_metrics workflow_over_root /\
    (forall x, x ∈ w_inputs workflow_over_root <->
               (exists p, x = IsParameter p /\ p ∈ spec_arguments_parameters spec) \/
               (exists a, x = IsArtifact a /\ a ∈ spec_arguments_artifacts spec)) /\
    length (spec_arguments_parameters spec) + length (spec_arguments_artifacts spec)
    = length (w_inputs workflow_over_root) /\
    NoDup (pvc_metadata_name <$> spec_volume_claim_templates spec) /\
    NoDup (vol_name <$> spec_volumes spec).
Proof.
  eexists. split; [reflexivity|].
  apply (build_spec_is_consistent 2 shared_store workflow_over_root). reflexivity.
Defined.

(** ** The exit hook: what it leaves alone *)

Lemma traverse_ext {A B : Type} (f g : A -> result B) (l : list A) :
  (forall x, f x = g x) -> traverse f l = traverse g l.
Proof.
  intros Hfg. induction l as [|x l IH]; [done|]. simpl. by rewrite Hfg, IH.
Qed.

Lemma traverse_Forall2 {A B : Type} (f g : A -> result B) (P : B -> B -> Prop)
    (l : list A) (ys : list B) :
  (forall x y, f x = Ok y -> exists y', g x = Ok y' /\ P y y') ->
  traverse f l = Ok ys ->
  exists ys', traverse g l = Ok ys' /\ Forall2 P ys ys'.
Proof.
  intros Hfg. revert ys. induction l as [|x l IH]; intros ys; simpl.
  - intros [= <-]. by exists [].
  - intros H. apply bind_Ok in H as (y & Hy & H).
    apply bind_Ok in H as (ys0 & Hys0 & H). injection H as <-.
    destruct (Hfg x y Hy) as (y' & Hy' & HP).
    destruct (IH ys0 Hys0) as (ys' & Hys' & HPs).
    exists (y' :: ys'). rewrite Hy', Hys'. split; [done|]. by constructor.
Qed.

Lemma concat_Forall2 {A : Type} (P : A -> A -> Prop) (ls ks : list (list A)) :
  Forall2 (Forall2 P) ls ks -> Forall2 P (concat ls) (concat ks).
Proof.
  induction 1 as [|l k ls ks Hlk _ IH]; simpl; [constructor|].
  by apply Forall2_app.
Qed.

(** Two stores with the same DAGs whose tasks differ at most in their exit
    flags. *)
Section FlagOnly.
Variables st st' : Store.
Hypothesis same_dags : dags_of st' = dags_of st.
Hypothesis same_tasks :
  forall q, option_Forall2 same_but_flag (tasks_of st !! q) (tasks_of st' !! q).

Lemma get_tasks_flag (ts : list tref) :
  (traverse (get_task st) ts = Stuck /\ traverse (get_task st') ts = Stuck) \/
  (exists objs objs',
      traverse (get_task st) ts = Ok objs /\
      traverse (get_task st') ts = Ok objs' /\
      Forall2 same_but_flag objs objs').
Proof using Type*.
  induction ts as [|q ts IH].
  - right. by exists [], [].
  - simpl.
    destruct IH as [[-> ->]|(objs & objs' & -> & -> & Hobjs)];
      unfold get_task; destruct (same_tasks q) as [t t' Htt'|]; simpl.
    all: try (left; done).
    right. exists (t :: objs), (t' :: objs').
    split; [done|]. split; [done|]. by constructor.
Qed.

Lemma own_templates_flag (objs objs' : list Task) :
  Forall2 same_but_flag objs objs' ->
  omap Task_build_template objs' = omap Task_build_template objs.
Proof using Type*.
  intros H. symmetry. apply list_omap_ext.
  eapply Forall2_impl; [exact H|].
  intros a b (_ & _ & Hb). unfold Task_build_template. by rewrite Hb.
Qed.

Lemma sub_dags_flag (objs objs' : list Task) :
  Forall2 same_but_flag objs objs' -> sub_dags_of objs' = sub_dags_of objs.
Proof using Type*.
  intros H. symmetry. apply list_omap_ext.
  eapply Forall2_impl; [exact H|]. by intros a b (_ & Hd & _).
Qed.

Lemma DAG_build_templates_flag (fuel : nat) (self : dref) :
  DAG_build_templates fuel st' self = DAG_build_templates fuel st self.
Proof using Type*.
  revert self. induction fuel as [|fuel IH]; intros self; [done|]. simpl.
  unfold get_dag. rewrite same_dags.
  destruct (dags_of st !! self) as [d|]; simpl; [|done].
  destruct (tasks d) as [ts|]; [|done].
  destruct (get_tasks_flag ts) as [[-> ->]|(objs & objs' & -> & -> & Hobjs)];
    simpl; [done|].
  rewrite (own_templates_flag objs objs' Hobjs), (sub_dags_flag objs objs' Hobjs).
  by rewrite (traverse_ext _ _ _ IH).
Qed.

Lemma build_resources_flag {R : Type} (key : R -> string) (declared : Task -> list R)
    (fuel : nat) (self : dref) :
  (forall a b, same_but_flag a b -> declared a = declared b) ->
  build_resources key declared fuel st' self = build_resources key declared fuel st self.
Proof using Type*.
  intros Hdecl. revert self. induction fuel as [|fuel IH]; intros self; [done|]. simpl.
  unfold get_dag. rewrite same_dags.
  destruct (dags_of st !! self) as [d|]; simpl; [|done].
  destruct (tasks d) as [ts|]; simpl; [|done].
  destruct (get_tasks_flag ts) as [[-> ->]|(objs & objs' & -> & -> & Hobjs)];
    simpl; [done|].
  rewrite (sub_dags_flag objs objs' Hobjs), (traverse_ext _ _ _ IH).
  replace (foldl (fun vcs t => store_all key vcs (declared t)) [] objs')
    with (foldl (fun vcs t => store_all key vcs (declared t)) [] objs); [done|].
  generalize (@nil (string * R)).
  induction Hobjs as [|a b objs objs' Hab _ IH']; intros m; [done|].
  simpl. by rewrite (Hdecl a b Hab), IH'.
Qed.

Lemma DAG_build_flag (fuel : nat) (self : dref) (all : list Template) :
  DAG_build fuel st self = Ok all ->
  exists all',
    DAG_build fuel st' self = Ok all' /\
    Forall2 (fun a b => tpl_name b = tpl_name a /\ tpl_inputs b = tpl_inputs a /\
                        tpl_outputs b = tpl_outputs a) all all'.
Proof using Type*.
  revert self all. induction fuel as [|fuel IH]; intros self all; [done|]. simpl.
  unfold DAG_build_dag_tasks, get_dag. rewrite same_dags.
  destruct (dags_of st !! self) as [d|]; simpl; [|done].
  destruct (outputs d) as [outs|]; simpl; [|done].
  destruct (tasks d) as [ts|]; simpl; [|done].
  destruct (get_tasks_flag ts) as [[-> ->]|(objs & objs' & -> & -> & Hobjs)];
    simpl; [done|].
  rewrite (sub_dags_flag objs objs' Hobjs).
  intros H. apply bind_Ok in H as (below & Hbelow & H). injection H as <-.
  destruct (traverse_Forall2 _ (DAG_build fuel st') _ _ _ IH Hbelow)
    as (below' & -> & Hall).
  simpl. eexists. split; [reflexivity|].
  constructor; [done|]. by apply concat_Forall2.
Qed.
End FlagOnly.

Lemma flagged_same_tasks (st : Store) (r : tref) (t : Task) (q : tref) :
  tasks_of st !! r = Some t ->
  option_Forall2 same_but_flag (tasks_of st !! q)
    (tasks_of (set_task st r (mkTask (t_name t) (t_dag t) true (t_builds t))) !! q).
Proof.
  intros Hr. simpl. destruct (decide (q = r)) as [->|Hne].
  - rewrite lookup_insert_eq, Hr. by constructor.
  - rewrite lookup_insert_ne by done.
    destruct (tasks_of st !! q); by constructor.
Qed.

(** X12: registering a task as the exit hook touches nothing but the hook
    target and that task's flag.  The DAGs, the context stack and the
    submissions are as before and so is every other task; the registered
    task keeps its name, its nested DAG and its build results.  Hence every
    DAG compiles to the same task templates and the same shared resources of
    both kinds as before, and [build] returns DAG templates of the same
    names, inputs and outputs, in the same order: the exit task's own
    template stays in the workflow, only its descriptor leaves the task
    lists. *)
Theorem on_exit_task_changes_only_the_flag (wrapper : TaskBuilds) (st : Store)
    (w : Workflow) (r : tref) (t : Task) :
  tasks_of st !! r = Some t ->
  exists st',
    Workflow_on_exit wrapper st w (ExitTask r) = (Ok (with_on_exit w (t_name t)), st') /\
    dags_of st' = dags_of st /\
    dag_context st' = dag_context st /\
    submitted st' = submitted st /\
    (forall q, q <> r -> tasks_of st' !! q = tasks_of st !! q) /\
    (exists t', tasks_of st' !! r = Some t' /\ same_but_flag t t' /\
                is_exit_task t' = true) /\
    (forall fuel self,
        DAG_build_templates fuel st' self = DAG_build_templates fuel st self) /\
    (forall fuel self,
        DAG_build_volume_claim_templates fuel st' self
        = DAG_build_volume_claim_templates fuel st self) /\
    (forall fuel self,
        DAG_build_persistent_volume_claims fuel st' self
        = DAG_build_persistent_volume_claims fuel st self) /\
    (forall fuel self all,
        DAG_build fuel st self = Ok all ->
        exists all',
          DAG_build fuel st' self = Ok all' /\
          Forall2 (fun a b => tpl_name b = tpl_name a /\ tpl_inputs b = tpl_inputs a /\
                              tpl_outputs b = tpl_outputs a) all all').
Proof.
  intros Hr. unfold Workflow_on_exit. rewrite Hr.
  eexists. split; [reflexivity|].
  split; [done|]. split; [done|]. split; [done|]. split.
  { intros q Hq. simpl. by rewrite lookup_insert_ne. }
  split.
  { eexists. split; [apply lookup_insert_eq | done]. }
  pose proof (fun q => flagged_same_tasks st r t q Hr) as Hsame.
  split; [|split; [|split]].
  - intros fuel self. by apply DAG_build_templates_flag.
  - intros fuel self. apply build_resources_flag; [done|done|].
    intros a b (_ & _ & Hb). unfold Task_build_volume_claim_templates. by rewrite Hb.
  - intros fuel self. apply build_resources_flag; [done|done|].
    intros a b (_ & _ & Hb). unfold Task_build_persistent_volume_claims. by rewrite Hb.
  - intros fuel self all. by apply DAG_build_flag.
Qed.

Lemma on_exit_task_changes_only_the_flag_witness :
  exists st',
    Workflow_on_exit (wrapper_builds "unused") cleanup_store workflow_over_root
      (ExitTask 1)
    = (Ok (with_on_exit workflow_over_root "cleanup"), st') /\
    DAG_build_templates 1 st' 0
    = Ok [mkTemplate "work" None None None; mkTemplate "cleanup" None None None] /\
    DAG_build_dag_tasks st' 0 = Ok [plain_descriptor "work"].
Proof.
  destruct (on_exit_task_changes_only_the_flag (wrapper_builds "unused") cleanup_store
              workflow_over_root 1
              (mkTask "cleanup" None false
                 (mkTaskBuilds (Some (mkTemplate "cleanup" None None None))
                    (plain_descriptor "cleanup") [] [])) eq_refl)
    as (st' & Hcall & _ & _ & _ & _ & _ & Hown & _).
  exists st'. split; [exact Hcall|]. split.
  - rewrite Hown. reflexivity.
  - injection Hcall as <-. reflexivity.
Defined.

(** X13: the exit hook is a single name, the flags are not.  After
    registering one task and then another, the hook target is the name of
    the second, yet both tasks are flagged: the descriptors of both are left
    out of every compiled task list, so the first task is neither run by its
    DAG nor named as the hook. *)
Theorem on_exit_twice_keeps_both_flags (wrapper : TaskBuilds) (st : Store)
    (w : Workflow) (r1 r2 : tref) (t1 t2 : Task) :
  tasks_of st !! r1 = Some t1 ->
  tasks_of st !! r2 = Some t2 ->
  r1 <> r2 ->
  exists w1 st1 w2 st2,
    Workflow_on_exit wrapper st w (ExitTask r1) = (Ok w1, st1) /\
    Workflow_on_exit wrapper st1 w1 (ExitTask r2) = (Ok w2, st2) /\
    on_exit_ w1 = Some (t_name t1) /\
    on_exit_ w2 = Some (t_name t2) /\
    descriptor_of st2 r1 = None /\
    descriptor_of st2 r2 = None /\
    (forall self d ts objs,
        dags_of st !! self = Some d ->
        tasks d = Some ts ->
        traverse (get_task st) ts = Ok objs ->
        DAG_build_dag_tasks st2 self
        = Ok (omap (descriptor_of st) (filter (fun q => q <> r1 /\ q <> r2) ts))).
Proof.
  intros H1 H2 Hne. unfold Workflow_on_exit. rewrite H1.
  eexists _, _, _, _. split; [reflexivity|]. split.
  { simpl. rewrite lookup_insert_ne by done. rewrite H2. reflexivity. }
  split; [done|]. split; [done|].
  set (f1 := mkTask (t_name t1) (t_dag t1) true (t_builds t1)).
  set (f2 := mkTask (t_name t2) (t_dag t2) true (t_builds t2)).
  split; [|split].
  - rewrite descriptor_of_other by done. by apply descriptor_of_flagged.
  - by apply descriptor_of_flagged.
  - intros self d ts objs Hd Hts Hobjs.
    assert (forall q,
      option_Forall2 same_but_flag (tasks_of st !! q)
        (tasks_of (set_task (set_task st r1 f1) r2 f2) !! q)) as Hsame.
    { intros q. simpl. destruct (decide (q = r2)) as [->|Hq2].
      - rewrite lookup_insert_eq, H2. by constructor.
      - rewrite lookup_insert_ne by done. destruct (decide (q = r1)) as [->|Hq1].
        + rewrite lookup_insert_eq, H1. by constructor.
        + rewrite lookup_insert_ne by done. destruct (tasks_of st !! q); by constructor. }
    destruct (get_tasks_flag st (set_task (set_task st r1 f1) r2 f2) eq_refl Hsame ts)
      as [[Hstuck _]|(objs0 & objs' & _ & Hobjs' & _)]; [congruence|].
    rewrite (DAG_build_dag_tasks_list (set_task (set_task st r1 f1) r2 f2)
               self d ts objs' Hd Hts Hobjs').
    rewrite (traverse_get_task_descriptors _ ts objs' Hobjs').
    rewrite (descriptors_after_flag _ r2 f2 ts eq_refl).
    rewrite (descriptors_after_flag _ r1 f1 _ eq_refl).
    f_equal. f_equal. rewrite list_filter_filter.
    apply list_filter_iff. intros q. tauto.
Qed.

Lemma on_exit_twice_keeps_both_flags_witness :
  exists w1 st1 w2 st2,
    Workflow_on_exit (wrapper_builds "unused") cleanup_store workflow_over_root
      (ExitTask 1) = (Ok w1, st1) /\
    Workflow_on_exit (wrapper_builds "unused") st1 w1 (ExitTask 0) = (Ok w2, st2) /\
    on_exit_ w1 = Some "cleanup" /\
    on_exit_ w2 = Some "work" /\
    descriptor_of st2 1 = None /\
    descriptor_of st2 0 = None /\
    (forall self d ts objs,
        dags_of cleanup_store !! self = Some d ->
        tasks d = Some ts ->
        traverse (get_task cleanup_store) ts = Ok objs ->
        DAG_build_dag_tasks st2 self
        = Ok (omap (descriptor_of cleanup_store)
                (filter (fun q => q <> 1 /\ q <> 0) ts))).
Proof.
  apply (on_exit_twice_keeps_both_flags (wrapper_builds "unused") cleanup_store
           workflow_over_root 1 0
           (mkTask "cleanup" None false
              (mkTaskBuilds (Some (mkTemplate "cleanup" None None None))
                 (plain_descriptor "cleanup") [] []))
           (mkTask "work" None false
              (mkTaskBuilds (Some (mkTemplate "work" None None None))
                 (plain_descriptor "work") [] [])));
    [reflexivity | reflexivity | lia].
Defined.

(** ** The authoring scope *)

Lemma enter_then_exit (st : Store) (d : dref) :
  dag_context_exit (dag_context_enter st d) = st.
Proof. by destruct st. Qed.

(** X14: the scope protocol of a workflow.  Entering pushes the workflow's
    DAG on the context stack and leaving pops it, so that entering and then
    leaving restores the store.  Inside the scope [create] raises
    [ValueError] and leaves the store alone.  After the scope is left,
    [create] submits exactly the model the workflow builds, once, and
    submits nothing when the build raises.  The flag does not count scopes:
    after entering twice and leaving once the flag is clear although the DAG
    is still on the stack. *)
Theorem workflow_scope_protocol (fuel : nat) (st : Store) (w : Workflow) :
  let (w1, st1) := Workflow_enter st w in
  let (w2, st2) := Workflow_exit st1 w1 in
  dag_context st1 = w_dag w :: dag_context st /\
  Workflow_create fuel st1 w1 = (Raise ValueError, st1) /\
  st2 = st /\
  w2 = with_in_context w false /\
  (forall m, Workflow_build fuel st w = Ok m ->
             Workflow_create fuel st2 w2 = (Ok m, submit st m) /\
             submitted (submit st m) = submitted st ++ [m]) /\
  (forall e, Workflow_build fuel st w = Raise e ->
             Workflow_create fuel st2 w2 = (Raise e, st)) /\
  (let (w3, st3) := Workflow_enter st1 w1 in
   let (w4, st4) := Workflow_exit st3 w3 in
   in_context w4 = Some false /\
   dag_context st4 = w_dag w :: dag_context st /\
   forall m, Workflow_build fuel st4 w4 = Ok m ->
             Workflow_create fuel st4 w4 = (Ok m, submit st4 m)).
Proof.
  unfold Workflow_enter, Workflow_exit. rewrite !enter_then_exit.
  split; [done|]. split; [done|]. split; [done|]. split; [done|].
  split; [|split; [|split; [done|split; [done|]]]].
  - intros m Hm. unfold Workflow_create. simpl.
    change (Workflow_build fuel st (with_in_context (with_in_context w true) false))
      with (Workflow_build fuel st w).
    by rewrite Hm.
  - intros e He. unfold Workflow_create. simpl.
    change (Workflow_build fuel st (with_in_context (with_in_context w true) false))
      with (Workflow_build fuel st w).
    by rewrite He.
  - intros m Hm. unfold Workflow_create. simpl in *. by rewrite Hm.
Qed.

(** ** The DAG a workflow makes for itself *)

Lemma rstrip_dash_dot_nil (s : string) :
  rstrip_dash_dot s = EmptyString -> only_dashes_and_dots s = true.
Proof.
  induction s as [|c s IH]; [done|]. simpl.
  destruct (rstrip_dash_dot s) as [|c' r]; [|done].
  unfold is_dash_or_dot.
  destruct (Ascii.eqb c "-" || Ascii.eqb c ".")%bool; [|done].
  intros _. by apply IH.
Qed.

Lemma rstrip_dash_dot_suffix (s : string) :
  exists suffix, s = rstrip_dash_dot s +:+ suffix /\ only_dashes_and_dots suffix = true.
Proof.
  induction s as [|c s (suffix & Hs & Hsuffix)]; [by exists EmptyString|].
  simpl. destruct (rstrip_dash_dot s) as [|c' r] eqn:Hr.
  - destruct (Ascii.eqb c "-" || Ascii.eqb c ".")%bool eqn:Hc.
    + exists (String c s). split; [done|]. simpl. unfold is_dash_or_dot.
      rewrite Hc. simpl. by apply rstrip_dash_dot_nil.
    + exists suffix. split; [|done]. rewrite Hs at 1. reflexivity.
  - exists suffix. split; [|done]. rewrite Hs at 1. reflexivity.
Qed.

Lemma rstrip_dash_dot_end (s : string) : ends_in_dash_or_dot (rstrip_dash_dot s) = false.
Proof.
  induction s as [|c s IH]; [done|]. simpl.
  destruct (rstrip_dash_dot s) as [|c' r] eqn:Hr.
  - unfold is_dash_or_dot.
    destruct (Ascii.eqb c "-" || Ascii.eqb c ".")%bool eqn:Hc; [done|].
    simpl. unfold is_dash_or_dot. by rewrite Hc.
  - exact IH.
Qed.

(** X15: a workflow constructed with neither a DAG nor a DAG name makes its
    own DAG and names it after itself with the trailing dashes and dots
    removed: the workflow's name is the DAG's name followed by dashes and
    dots only, and the DAG's name does not end in a dash or a dot.  The new
    DAG is a fresh object with no inputs.  A workflow that has no name of its
    own (the validator returned [None]) cannot be constructed this way:
    [AttributeError], and the store is left as it was. *)
Theorem workflow_names_its_own_DAG
    (validate_name : option string -> option string -> result (option string))
    (st st' : Store) (own_name generate_name : option string) (ins : inputs_arg)
    (outs : option (list IO)) (metrics : metrics_arg) (w : Workflow) :
  Workflow_init validate_name st own_name None None generate_name ins outs metrics
  = (Ok w, st') ->
  (exists n d suffix,
      validate_name own_name generate_name = Ok (Some n) /\
      w_name w = Some n /\
      (w_dag w ∉ dom (dags_of st)) /\
      dags_of st' !! w_dag w = Some d /\
      name d = rstrip_dash_dot n /\
      n = name d +:+ suffix /\
      only_dashes_and_dots suffix = true /\
      ends_in_dash_or_dot (name d) = false /\
      inputs d = []) /\
  (forall st0 own_name0 generate_name0 ins0 outs0 metrics0,
      validate_name own_name0 generate_name0 = Ok None ->
      Workflow_init validate_name st0 own_name0 None None generate_name0 ins0 outs0 metrics0
      = (Raise AttributeError, st0)).
Proof.
  intros H. split.
  - unfold Workflow_init in H.
    destruct (validate_name own_name generate_name) as [[n|]| |] eqn:Hv; try done.
    unfold DAG_init in H.
    destruct (validate_name (Some (rstrip_dash_dot n)) None) as [x| |]; try done.
    destruct (Workflow_parse_metrics metrics) as [m| |]; try done.
    injection H as <- <-. simpl.
    destruct (rstrip_dash_dot_suffix n) as (suffix & Hn & Hsuffix).
    exists n, (mkDAG (rstrip_dash_dot n) [] None None), suffix.
    split; [done|]. split; [done|]. split; [apply is_fresh|].
    split; [apply lookup_insert_eq|]. split; [done|]. split; [exact Hn|].
    split; [done|]. split; [apply rstrip_dash_dot_end | done].
  - intros st0 own_name0 generate_name0 ins0 outs0 metrics0 Hv.
    unfold Workflow_init. by rewrite Hv.
Qed.

Lemma workflow_names_its_own_DAG_witness :
  exists n d suffix,
    accept_name (Some "nightly-run-.") None = Ok (Some n) /\
    n = "nightly-run-." /\
    (0 ∉ dom (dags_of empty_store)) /\
    dags_of (set_dag empty_store 0 (mkDAG "nightly-run" [] None None)) !! 0 = Some d /\
    name d = rstrip_dash_dot n /\
    n = name d +:+ suffix /\
    only_dashes_and_dots suffix = true /\
    ends_in_dash_or_dot (name d) = false /\
    inputs d = [].
Proof.
  destruct (workflow_names_its_own_DAG accept_name empty_store
              (set_dag empty_store 0 (mkDAG "nightly-run" [] None None))
              (Some "nightly-run-.") None InputsNone None MetricsNone
              (mkWorkflow (Some "nightly-run-.") None 0 [] [] None None None)
              eq_refl) as [(n & d & suffix & Hv & Hn & H) _].
  exists n, d, suffix. split; [exact Hv|]. split; [|exact H].
  simpl in Hn. by injection Hn as <-.
Defined.

(** X16: a workflow constructed without a DAG makes one with neither a task
    list nor an output list, whatever the other arguments.  On such a
    workflow [add_task] and [add_tasks] raise [AttributeError] and leave the
    store alone, [build] raises [TypeError] (given any recursion budget), and
    a task constructed inside the workflow's scope, which the constructor of
    hera.task adds to the DAG on top of the stack, fails with
    [AttributeError] as well. *)
Theorem workflow_own_DAG_has_no_collections
    (validate_name : option string -> option string -> result (option string))
    (st st' : Store) (own_name dag_name generate_name : option string)
    (ins : inputs_arg) (outs : option (list IO)) (metrics : metrics_arg)
    (w : Workflow) :
  Workflow_init validate_name st own_name dag_name None generate_name ins outs metrics
  = (Ok w, st') ->
  (exists d, dags_of st' !! w_dag w = Some d /\ tasks d = None /\ outputs d = None) /\
  (forall t, Workflow_add_task st' w t = (Raise AttributeError, st')) /\
  (forall ts, Workflow_add_tasks st' w ts = (Raise AttributeError, st')) /\
  (forall fuel, Workflow_build (S fuel) st' w = Raise TypeError) /\
  (forall n dag builds,
      (Task_init (Workflow_enter st' w).2 n dag builds).1 = Raise AttributeError).
Proof.
  intros H.
  assert (dags_of st' !! w_dag w = Some (mkDAG (
            match dags_of st' !! w_dag w with Some d => name d | None => "" end)
            [] None None)) as Hd.
  { unfold Workflow_init in H.
    destruct (validate_name own_name generate_name) as [self_name| |]; try done.
    destruct (match dag_name with
              | Some n => Ok n
              | None => match self_name with
                        | Some n => Ok (rstrip_dash_dot n)
                        | None => Raise AttributeError
                        end
              end) as [dn| |]; try done.
    unfold DAG_init in H.
    destruct (validate_name (Some dn) None) as [x| |]; try done.
    destruct (Workflow_parse_metrics metrics) as [m| |]; try done.
    injection H as <- <-. simpl. by rewrite lookup_insert_eq. }
  split; [by eexists|]. split; [|split; [|split]].
  - intros t. unfold Workflow_add_task, DAG_add_task. by rewrite Hd.
  - intros ts. unfold Workflow_add_tasks, DAG_add_tasks. by rewrite Hd.
  - intros fuel. unfold Workflow_build, Workflow_build_spec, get_dag.
    rewrite Hd. simpl. unfold get_dag. by rewrite Hd.
  - intros n dag builds. unfold Task_init, Workflow_enter. simpl.
    unfold DAG_add_task. simpl. by rewrite Hd.
Qed.

Lemma workflow_own_DAG_has_no_collections_witness :
  let st' := set_dag empty_store 0 (mkDAG "hera-dag" [] None None) in
  let w := mkWorkflow (Some "w") None 0 [] [] None None None in
  default_workflow = (Ok w, st') /\
  (exists d, dags_of st' !! w_dag w = Some d /\ tasks d = None /\ outputs d = None) /\
  (forall t, Workflow_add_task st' w t = (Raise AttributeError, st')) /\
  (forall ts, Workflow_add_tasks st' w ts = (Raise AttributeError, st')) /\
  (forall fuel, Workflow_build (S fuel) st' w = Raise TypeError) /\
  (forall n dag builds,
      (Task_init (Workflow_enter st' w).2 n dag builds).1 = Raise AttributeError).
Proof.
  split; [reflexivity|].
  apply (workflow_own_DAG_has_no_collections accept_name empty_store
           (set_dag empty_store 0 (mkDAG "hera-dag" [] None None))
           (Some "w") (Some "hera-dag") None InputsNone None MetricsNone).
  reflexivity.
Defined.

(** ** Normalized settings *)

(** X17: what the normalizers of the metrics and of the volume-claim
    collection strategy return is accepted by them again and returned
    unchanged; a strategy of the convenience enumeration becomes the native
    setting carrying its value; and the two normalizers part ways on a value
    of a type they do not know: the metrics raise [ValueError], the strategy
    is silently dropped. *)
Theorem normalized_settings_are_fixed_points :
  (forall m, Workflow_parse_metrics (metrics_again m) = Ok m) /\
  (forall a, match Workflow_parse_metrics a with
             | Ok m => Workflow_parse_metrics (metrics_again m) = Ok m
             | Raise e => e = ValueError \/ e = AssertionError
             | Stuck => False
             end) /\
  (forall g, Workflow_parse_volume_claim_gc (volume_claim_gc_again g) = g) /\
  (forall a, Workflow_parse_volume_claim_gc
               (volume_claim_gc_again (Workflow_parse_volume_claim_gc a))
             = Workflow_parse_volume_claim_gc a) /\
  (forall s, Workflow_parse_volume_claim_gc (GcConvenience s)
             = Workflow_parse_volume_claim_gc
                 (GcNative (mkVolumeClaimGC (Some (gc_value s))))) /\
  (forall v, Workflow_parse_metrics (MetricsOther v) = Raise ValueError /\
             Workflow_parse_volume_claim_gc (GcOther v) = None).
Proof.
  split; [by intros [m|]|]. split.
  { intros [|p|l|m|v]; simpl; try done; [|by left].
    destruct (forallb is_prometheus l); [done | by right]. }
  split; [by intros [g|]|]. split; [by intros [|g|s|v]|]. done.
Qed.

(** ** Sequence fields *)

(** X18: each of the three validators of [Sequence] passes [None] and
    strings through, prints integers in decimal (booleans, being integers,
    as [True] and [False]) and refuses everything else with
    [AssertionError], its only failure.  What it returns is [None], and then
    the value was [None], or a string; running it on its own result changes
    nothing; and integers that differ are printed differently. *)
Theorem Sequence_validators_give_strings :
  (forall v, Sequence_start_to_str v = Sequence_count_to_str v /\
             Sequence_end_to_str v = Sequence_count_to_str v) /\
  (forall v, Sequence_count_to_str v = Raise AssertionError <-> v = FieldOther) /\
  (forall v e, Sequence_count_to_str v = Raise e -> e = AssertionError) /\
  (forall v, Sequence_count_to_str v <> Stuck) /\
  (forall v r, Sequence_count_to_str v = Ok r ->
               (r = FieldOf PyNone /\ v = FieldOf PyNone) \/
               (exists s, r = FieldOf (PyStr s))) /\
  (forall v r, Sequence_count_to_str v = Ok r -> Sequence_count_to_str r = Ok r) /\
  (forall s, Sequence_count_to_str (FieldOf (PyStr s)) = Ok (FieldOf (PyStr s))) /\
  (forall z1 z2, Sequence_count_to_str (FieldOf (PyInt z1))
                 = Sequence_count_to_str (FieldOf (PyInt z2)) -> z1 = z2) /\
  (forall b, Sequence_count_to_str (FieldOf (PyBool b))
             = Ok (FieldOf (PyStr (if b then "True" else "False")))) /\
  Sequence_count_to_str (FieldOf (PyInt (-12))) = Ok (FieldOf (PyStr "-12")).
Proof.
  unfold Sequence_start_to_str, Sequence_end_to_str, Sequence_count_to_str.
  split; [done|]. split.
  { intros [[|z|s|b]|]; simpl; split; done. }
  split.
  { intros [[|z|s|b]|] e; simpl; try done. by intros [= <-]. }
  split.
  { by intros [[|z|s|b]|]. }
  split.
  { intros [[|z|s|b]|] r; simpl; try done; intros [= <-]; eauto. }
  split.
  { intros [[|z|s|b]|] r; simpl; try done; by intros [= <-]. }
  split; [done|]. split.
  { intros z1 z2. simpl. unfold py_str_of_int. intros [= H].
    by apply (inj pretty) in H. }
  split; [by intros []|]. reflexivity.
Qed.


